(** * ramalama/cli.py: transport resolution, configuration merge and
      engine orchestration, as a shallow embedding.

    Python strings are modelled as [string] (sequences of bytes, whose
    lexicographic order is the order of the code points of UTF-8 text; [len]
    counts bytes, which is the number of characters for ASCII text), dicts
    with string keys as [gmap string _], lists as [list], exceptions as values
    of [exn] carried by an error-and-state monad.  Everything imported from other
    modules of the package (backends, shortnames, TOML parser, run_cmd, the
    filesystem) is a collaborator whose answers are taken as given. *)

From Stdlib Require Import ZArith Ascii String DecimalString Sorted.
From stdpp Require Import gmap strings list.

Local Open Scope Z_scope.

(** ** Python values and strings *)

(** The values a configuration table can hold. *)
Inductive pyval : Type :=
  | VNone
  | VBool (b : bool)
  | VInt (z : Z)
  | VStr (s : string).

#[global] Instance pyval_inhabited : Inhabited pyval := populate VNone.

#[global] Instance pyval_eq_dec : EqDecision pyval.
Proof. solve_decision. Defined.

(** [bool(v)]: the truth value Python's [if v:] tests. *)
Definition truthy (v : pyval) : bool :=
  match v with
  | VNone => false
  | VBool b => b
  | VInt z => negb (z =? 0)
  | VStr s => negb (String.eqb s EmptyString)
  end.

(** [bool(s)] for a string: non-empty. *)
Definition str_truthy (s : string) : bool := negb (String.eqb s EmptyString).

(** [str(n)] for an integer. *)
Definition str_of_Z (z : Z) : string := NilEmpty.string_of_int (Z.to_int z).

(** [str(v)], as an f-string renders a value. *)
Definition py_str (v : pyval) : string :=
  match v with
  | VNone => "None"
  | VBool true => "True"
  | VBool false => "False"
  | VInt z => str_of_Z z
  | VStr s => s
  end.

(** [s.startswith(p)]. *)
Fixpoint startswith (s p : string) {struct p} : bool :=
  match p with
  | EmptyString => true
  | String c p' =>
      match s with
      | EmptyString => false
      | String d s' => Ascii.eqb d c && startswith s' p'
      end
  end.

(** [sub in s]. *)
Fixpoint contains (sub s : string) : bool :=
  startswith s sub ||
  match s with
  | EmptyString => false
  | String _ s' => contains sub s'
  end.

(** [s.lower()] and [s.upper()] on the ASCII letters. *)
Definition lower_ascii (c : ascii) : ascii :=
  let n := N_of_ascii c in
  if ((65 <=? n) && (n <=? 90))%N then ascii_of_N (n + 32) else c.

Definition upper_ascii (c : ascii) : ascii :=
  let n := N_of_ascii c in
  if ((97 <=? n) && (n <=? 122))%N then ascii_of_N (n - 32) else c.

Fixpoint str_map (f : ascii -> ascii) (s : string) : string :=
  match s with
  | EmptyString => EmptyString
  | String c s' => String (f c) (str_map f s')
  end.

Definition lower : string -> string := str_map lower_ascii.
Definition upper : string -> string := str_map upper_ascii.

(** [s.replace(old, new, 1)] for a one-character [old]. *)
Fixpoint replace_first (old : ascii) (new : string) (s : string) : string :=
  match s with
  | EmptyString => EmptyString
  | String c s' =>
      if Ascii.eqb c old then new +:+ s' else String c (replace_first old new s')
  end.

(** [s in l] for a list of strings. *)
Definition str_in (s : string) (l : list string) : bool :=
  existsb (String.eqb s) l.

(** The one-character string holding a double quote. *)
Definition dquote : string := String (ascii_of_N 34) EmptyString.

(** ** Exceptions *)

Inductive exn : Type :=
  | KeyError (msg : string)
  | ValueError (msg : string)
  | IndexError (msg : string)
  | TypeError (msg : string)
  | NotImplementedError (msg : string)
  | FileNotFoundError (msg : string)
  | AttributeError (msg : string)
  | CalledProcessError (returncode : Z)
  | OtherException (msg : string).

Definition is_KeyError (e : exn) : bool :=
  match e with KeyError _ => true | _ => false end.

Definition is_CalledProcessError (e : exn) : bool :=
  match e with CalledProcessError _ => true | _ => false end.

Inductive result (A : Type) : Type :=
  | Ok (a : A)
  | Raise (e : exn).
Arguments Ok {A} a.
Arguments Raise {A} e.

(** ** Backends and parsed arguments *)

(** The four model classes; [OCI] keeps the engine it was built with. *)
Inductive Backend : Type :=
  | Huggingface (model : string)
  | Ollama (model : string)
  | OCI (model : string) (conman : option string)
  | URL (model : string).

(** The attributes of the argparse namespace that this module reads or
    writes.  [noheading] and [notrunc] exist only for some sub-commands
    (the code asks [hasattr]); [None] stands for an absent attribute.
    [NAME] and [format] are [None] when not given. *)
Record Args : Type := mkArgs {
  engine : option string;
  store : string;
  debug : bool;
  ignore : bool;
  all : bool;
  NAME : option string;
  MODEL : list string;
  format : option string;
  noheading : option bool;
  notrunc : option bool;
  json : bool;
  quiet : bool
}.

(** ** [New]: the backend resolver *)

Definition dict_get (d : gmap string pyval) (k : string) (dflt : pyval) : pyval :=
  match d !! k with
  | Some v => v
  | None => dflt
  end.

Definition py_eq_str (v : pyval) (s : string) : bool :=
  match v with
  | VStr t => String.eqb t s
  | _ => false
  end.

Definition New (config : gmap string pyval) (model : string) (args : Args)
  : result Backend :=
  if startswith model "huggingface://" || startswith model "hf://"
     || startswith model "hf.co/" then
    Ok (Huggingface model)
  else if startswith model "ollama://" || contains "ollama.com/library/" model then
    Ok (Ollama model)
  else if startswith model "oci://" || startswith model "docker://" then
    Ok (OCI model (engine args))
  else if startswith model "http://" || startswith model "https://"
          || startswith model "file://" then
    Ok (URL model)
  else
    let transport := dict_get config "transport" (VStr "ollama") in
    if py_eq_str transport "huggingface" then Ok (Huggingface model)
    else if py_eq_str transport "ollama" then Ok (Ollama model)
    else if py_eq_str transport "oci" then Ok (OCI model (engine args))
    else
      Raise (KeyError ("transport " +:+ dquote +:+ py_str transport +:+ dquote
                       +:+ " not supported. Must be oci, huggingface, or ollama.")).

(** ** [normalize_registry] *)

(** The list literal in the source is ["ollama", "hf" "huggingface"]: Python
    joins the two adjacent literals, so it has two elements. *)
Definition registry_passthrough : list string := ["ollama"; "hfhuggingface"].

Definition normalize_registry (registry : option string) : string :=
  match registry with
  | None => "oci://"
  | Some r =>
      if negb (str_truthy r) || String.eqb r EmptyString
         || startswith r "oci://" then "oci://"
      else if str_in r registry_passthrough then r
      else "oci://" +:+ r
  end.

(** The backend [login_cli] and [logout_cli] build for a registry. *)
Definition login_backend (config : gmap string pyval) (args : Args)
    (registry : option string) : result Backend :=
  New config (normalize_registry registry) args.

(** ** Configuration merge *)

(** What the host reports through helpers defined in other modules:
    [container_manager()], [default_image()], [os.geteuid()] and
    [os.path.expanduser]. *)
Record Host : Type := mkHost {
  container_manager : option string;
  default_image : string;
  geteuid : Z;
  expanduser : string -> string
}.

Definition opt_str (o : option string) : pyval :=
  match o with
  | Some s => VStr s
  | None => VNone
  end.

(** [os.getenv(k)] is [environ !! k]; [os.getenv(k, dflt)]: *)
Definition getenv (environ : gmap string string) (k : string) (dflt : pyval) : pyval :=
  match environ !! k with
  | Some v => VStr v
  | None => dflt
  end.

Definition use_container (h : Host) (environ : gmap string string) : bool :=
  match environ !! "RAMALAMA_IN_CONTAINER" with
  | Some v =>
      if str_truthy v then String.eqb (lower v) "true"
      else bool_decide (container_manager h <> None)
  | None => bool_decide (container_manager h <> None)
  end.

Definition get_store (h : Host) : string :=
  if geteuid h =? 0 then "/var/lib/ramalama"
  else expanduser h "~/.local/share/ramalama".

(** [load_and_merge_config], from the dict [load_config()] returned: a map
    from table names to tables. *)
Definition load_and_merge_config (h : Host) (environ : gmap string string)
    (config : gmap string (gmap string pyval)) : gmap string pyval :=
  let c0 := default ∅ (config !! "ramalama") in
  let c1 := <["container" :=
              getenv environ "RAMALAMA_IN_CONTAINER"
                (dict_get c0 "container" (VBool (use_container h environ)))]> c0 in
  let c2 := <["engine" :=
              getenv environ "RAMALAMA_CONTAINER_ENGINE"
                (dict_get c1 "engine" (opt_str (container_manager h)))]> c1 in
  let c3 := <["image" :=
              getenv environ "RAMALAMA_IMAGE"
                (dict_get c2 "image" (VStr (default_image h)))]> c2 in
  let c4 := <["nocontainer" := dict_get c3 "nocontainer" (VBool false)]> c3 in
  let c5 :=
    if truthy (c4 !!! "nocontainer") then <["container" := VBool false]> c4
    else <["container" :=
            getenv environ "RAMALAMA_IN_CONTAINER"
              (dict_get c4 "container" (VBool (use_container h environ)))]> c4 in
  let c6 := <["carimage" :=
              dict_get c5 "carimage"
                (VStr "registry.access.redhat.com/ubi9-micro:latest")]> c5 in
  let c7 := <["runtime" := dict_get c6 "runtime" (VStr "llama.cpp")]> c6 in
  let c8 := <["store" :=
              getenv environ "RAMALAMA_STORE"
                (dict_get c7 "store" (VStr (get_store h)))]> c7 in
  <["transport" :=
     getenv environ "RAMALAMA_TRANSPORT"
       (dict_get c8 "transport" (VStr "ollama"))]> c8.

(** The file-derived [nocontainer] flag: what the [ramalama] table holds,
    [False] when the key is absent. *)
Definition file_nocontainer (config : gmap string (gmap string pyval)) : pyval :=
  dict_get (default ∅ (config !! "ramalama")) "nocontainer" (VBool false).

(** ** [human_duration] *)

Definition human_duration (d : Z) : string :=
  if d <? 1 then "Less than a second"
  else if d =? 1 then "1 second"
  else if d <? 60 then str_of_Z d +:+ " seconds"
  else if d <? 120 then "1 minute"
  else if d <? 3600 then str_of_Z (d / 60) +:+ " minutes"
  else if d <? 7200 then "1 hour"
  else if d <? 86400 then str_of_Z (d / 3600) +:+ " hours"
  else if d <? 172800 then "1 day"
  else if d <? 604800 then str_of_Z (d / 86400) +:+ " days"
  else if d <? 1209600 then "1 week"
  else if d <? 2419200 then str_of_Z (d / 604800) +:+ " weeks"
  else if d <? 4838400 then "1 month"
  else if d <? 31536000 then str_of_Z (d / 2419200) +:+ " months"
  else if d <? 63072000 then "1 year"
  else str_of_Z (d / 31536000) +:+ " years".

(** ** More string helpers: [strip], [split], [replace], padding *)

Definition nl_char : ascii := ascii_of_N 10.
Definition nl : string := String nl_char EmptyString.

Definition is_space (c : ascii) : bool :=
  let n := N_of_ascii c in
  (((9 <=? n) && (n <=? 13)) || ((28 <=? n) && (n <=? 32)))%N.

Fixpoint lstrip (s : string) : string :=
  match s with
  | EmptyString => EmptyString
  | String c s' => if is_space c then lstrip s' else s
  end.

Fixpoint rstrip (s : string) : string :=
  match s with
  | EmptyString => EmptyString
  | String c s' =>
      let r := rstrip s' in
      if is_space c && String.eqb r EmptyString then EmptyString else String c r
  end.

Definition strip (s : string) : string := rstrip (lstrip s).

(** [s.split(sep)] for a one-character separator. *)
Fixpoint split_char (sep : ascii) (s : string) : list string :=
  match s with
  | EmptyString => [EmptyString]
  | String c s' =>
      if Ascii.eqb c sep then EmptyString :: split_char sep s'
      else match split_char sep s' with
           | h :: t => String c h :: t
           | [] => [String c EmptyString]
           end
  end.

Fixpoint drop_str (n : nat) (s : string) : string :=
  match n, s with
  | O, _ => s
  | S n', String _ s' => drop_str n' s'
  | S _, EmptyString => EmptyString
  end.

(** [s.replace(old, new)] for a non-empty [old]; [fuel] bounds the number of
    steps and [String.length s] is always enough. *)
Fixpoint replace_all_fuel (fuel : nat) (old new s : string) : string :=
  match fuel with
  | O => s
  | S fuel' =>
      match s with
      | EmptyString => EmptyString
      | String c s' =>
          if startswith s old
          then new +:+ replace_all_fuel fuel' old new (drop_str (String.length old) s)
          else String c (replace_all_fuel fuel' old new s')
      end
  end.

Definition replace_all (old new s : string) : string :=
  replace_all_fuel (String.length s) old new s.

Fixpoint spaces (n : nat) : string :=
  match n with
  | O => EmptyString
  | S n' => String (ascii_of_N 32) (spaces n')
  end.

(** The f-string field [{s:<{w}}]: left-justified in a field of width [w]. *)
Definition ljust (s : string) (w : nat) : string :=
  s +:+ spaces (w - String.length s)%nat.

(** ** Sorting: Python's stable [sorted] *)

Fixpoint insert_by {A : Type} (le : A -> A -> bool) (x : A) (l : list A) : list A :=
  match l with
  | [] => [x]
  | y :: l' => if le x y then x :: l else y :: insert_by le x l'
  end.

(** Insertion from the right keeps the order of equal elements. *)
Definition sort_by {A : Type} (le : A -> A -> bool) (l : list A) : list A :=
  foldr (insert_by le) [] l.

(** [sorted(l, key=key)] with string keys. *)
Definition sorted_by_str {A : Type} (key : A -> string) (l : list A) : list A :=
  sort_by (fun x y => String.leb (key x) (key y)) l.

(** [sorted(l, key=key, reverse=True)] with numeric keys. *)
Definition sorted_by_Z_reverse {A : Type} (key : A -> Z) (l : list A) : list A :=
  sort_by (fun x y => key y <=? key x) l.

(** ** Model listings *)

(** [modified] is a number of seconds for local models and whatever the
    OCI listing reports (a string) for the others. *)
Inductive Modified : Type :=
  | MSeconds (d : Z)
  | MText (s : string).

Record ModelEntry : Type := mkEntry {
  name : string;
  modified : Modified;
  size : string
}.

(** ** Effects: the trace of what the program does to the outside *)

Inductive Event : Type :=
  | EvRunCmd (argv : list (option string)) (ignore_stderr : bool) (dbg : bool)
  | EvRemove (b : Backend) (args : Args) (ignore_stderr : bool)
  | EvOciList (args : Args)
  | EvChdir (dir : string)
  | EvPrint (line : string)
  | EvPerror (line : string).

(** The collaborators, as transitions on an abstract world:
    - [run_cmd argv ignore_stderr debug]: the subprocess call; the answer is
      its decoded standard output, or the exception it raises;
    - [model_remove b args ignore_stderr]: [b.remove(args)] of a backend;
    - [oci_list_models args]: [ramalama.oci.list_models(args)];
    - [shortnames_resolve], [MODEL_TYPES], [json_dumps]: values and pure
      functions of other modules;
    - the filesystem as the current directory shows it: [rglob] for
      [Path().rglob("*")], [path_exists], [is_symlink], [getmtime],
      [lstat_age] for [int(time.time() - path.lstat().st_mtime)] and
      [get_size] for the size already rendered by [human_readable_size]. *)
Record Services (World : Type) : Type := mkServices {
  run_cmd : list (option string) -> bool -> bool -> World -> result string * World;
  model_remove : Backend -> Args -> bool -> World -> result unit * World;
  oci_list_models : Args -> World -> result (list ModelEntry) * World;
  shortnames_resolve : string -> option string;
  MODEL_TYPES : list string;
  json_dumps : list ModelEntry -> string;
  getcwd : World -> string;
  chdir : string -> World -> result unit * World;
  rglob : World -> list string;
  path_exists : World -> string -> bool;
  is_symlink : World -> string -> bool;
  getmtime : World -> string -> Z;
  lstat_age : World -> string -> Z;
  get_size : World -> string -> string
}.
Arguments run_cmd {World} _ _ _ _ _.
Arguments model_remove {World} _ _ _ _ _.
Arguments oci_list_models {World} _ _ _.
Arguments shortnames_resolve {World} _ _.
Arguments MODEL_TYPES {World} _.
Arguments json_dumps {World} _ _.
Arguments getcwd {World} _ _.
Arguments chdir {World} _ _ _.
Arguments rglob {World} _ _.
Arguments path_exists {World} _ _ _.
Arguments is_symlink {World} _ _ _.
Arguments getmtime {World} _ _ _.
Arguments lstat_age {World} _ _ _.
Arguments get_size {World} _ _ _.

(** ** The monad: state (world and trace) with exceptions *)

Definition St (World : Type) : Type := (World * list Event)%type.

Definition M (World A : Type) : Type := St World -> result A * St World.

Definition ret {World A : Type} (a : A) : M World A := fun st => (Ok a, st).

Definition raise {World A : Type} (e : exn) : M World A := fun st => (Raise e, st).

Definition bind {World A B : Type} (c : M World A) (k : A -> M World B) : M World B :=
  fun st =>
    match c st with
    | (Ok a, st') => k a st'
    | (Raise e, st') => (Raise e, st')
    end.

(** [try: c / except Exception as e: h e]; the handler re-raises what its
    [except] clause does not name. *)
Definition try_except {World A : Type} (c : M World A) (h : exn -> M World A)
  : M World A :=
  fun st =>
    match c st with
    | (Ok a, st') => (Ok a, st')
    | (Raise e, st') => h e st'
    end.

Declare Scope cli_scope.
Delimit Scope cli_scope with cli.
Notation "'let*' x ':=' c 'in' k" := (bind c (fun x => k))
  (at level 10, x name, c at level 100, k at level 200) : cli_scope.
Notation "c '>>' k" := (bind c (fun _ => k))
  (at level 65, right associativity) : cli_scope.
Local Open Scope cli_scope.

(** One event appended to the trace. *)
Definition emit {World : Type} (ev : Event) : M World unit :=
  fun st => (Ok tt, (st.1, st.2 ++ [ev])).

(** A call to a collaborator: recorded, then answered by the world. *)
Definition call {World A : Type} (ev : Event) (f : World -> result A * World)
  : M World A :=
  fun st =>
    let '(r, w') := f st.1 in (r, (w', st.2 ++ [ev])).

(** An observation of the world. *)
Definition observe {World A : Type} (f : World -> A) : M World A :=
  fun st => (Ok (f st.1), st).

Definition print {World : Type} (line : string) : M World unit := emit (EvPrint line).
Definition perror {World : Type} (line : string) : M World unit := emit (EvPerror line).

(** [for x in l: body x]. *)
Fixpoint for_each {World A : Type} (l : list A) (body : A -> M World unit)
  : M World unit :=
  match l with
  | [] => ret tt
  | x :: l' => body x >> for_each l' body
  end.

(** ** Engine adapter and orchestration *)

Section Orchestration.
Context {World : Type} (sv : Services World).
Variable config : gmap string pyval.

Definition opt_truthy (o : option string) : bool :=
  match o with
  | Some s => str_truthy s
  | None => false
  end.

Definition call_run_cmd (argv : list (option string)) (ignore_stderr dbg : bool)
  : M World string :=
  call (EvRunCmd argv ignore_stderr dbg) (run_cmd sv argv ignore_stderr dbg).

Definition call_remove (b : Backend) (args : Args) (ignore_stderr : bool)
  : M World unit :=
  call (EvRemove b args ignore_stderr) (model_remove sv b args ignore_stderr).

Definition lift_result {A : Type} (r : result A) : M World A :=
  match r with
  | Ok a => ret a
  | Raise e => raise e
  end.

Definition _list_containers (args : Args) : M World (list string) :=
  let conman := engine args in
  if bool_decide (conman = Some EmptyString) || bool_decide (conman = None) then
    raise (ValueError "no container manager (Podman, Docker) found")
  else
    let conman_args :=
      [conman; Some "ps"; Some "-a"; Some "--filter"; Some "label=ai.ramalama"] in
    let conman_args :=
      if default false (noheading args) then conman_args ++ [Some "--noheading"]
      else conman_args in
    let conman_args :=
      if default false (notrunc args) then conman_args ++ [Some "--no-trunc"]
      else conman_args in
    let conman_args :=
      if opt_truthy (format args)
      then conman_args ++ [Some ("--format=" +:+ default EmptyString (format args))]
      else conman_args in
    try_except
      (let* out := call_run_cmd conman_args false (debug args) in
       let output := strip out in
       if String.eqb output EmptyString then ret []
       else ret (split_char nl_char output))
      (fun e =>
         if is_CalledProcessError e then
           perror "ramalama list command requires a running container engine"
           >> raise e
         else raise e).

Definition list_containers (args : Args) : M World unit :=
  let* l := _list_containers args in
  if (length l =? 0)%nat then ret tt
  else
    let* l' := _list_containers args in
    print (String.concat nl l').

Definition _stop_container (args : Args) (name : option string) : M World unit :=
  if negb (opt_truthy name) then raise (ValueError "must specify a container name")
  else
    let conman := engine args in
    if bool_decide (conman = Some EmptyString) then
      raise (ValueError "no container manager (Podman, Docker) found")
    else
      let conman_args := [conman; Some "stop"; Some "-t=0"] in
      let '(conman_args, ignore_stderr) :=
        if ignore args then
          if bool_decide (conman = Some "podman")
          then (conman_args ++ [Some "--ignore"; Some (py_str (VBool (ignore args)))],
                false)
          else (conman_args, true)
        else (conman_args, false) in
      let conman_args := conman_args ++ [name] in
      try_except
        (call_run_cmd conman_args ignore_stderr (debug args) >> ret tt)
        (fun e =>
           if is_CalledProcessError e then
             if ignore args && bool_decide (conman = Some "docker") then ret tt
             else raise e
           else raise e).

Definition set_ignore (args : Args) (b : bool) : Args :=
  mkArgs (engine args) (store args) (debug args) b (all args) (NAME args)
         (MODEL args) (format args) (noheading args) (notrunc args)
         (json args) (quiet args).

Definition set_format (args : Args) (f : string) : Args :=
  mkArgs (engine args) (store args) (debug args) (ignore args) (all args) (NAME args)
         (MODEL args) (Some f) (noheading args) (notrunc args)
         (json args) (quiet args).

Definition stop_container (args : Args) : M World unit :=
  if negb (all args) then _stop_container args (NAME args)
  else if opt_truthy (NAME args) then
    raise (ValueError ("specifying --all and container name, "
                       +:+ default EmptyString (NAME args) +:+ ", not allowed"))
  else
    let args := set_ignore args true in
    let args := set_format args "{{ .Names }}" in
    let* names := _list_containers args in
    for_each names (fun i => _stop_container args (Some i)).

(** The model name after [shortnames.resolve]. *)
Definition resolve_shortname (model : string) : string :=
  match shortnames_resolve sv model with
  | Some r => if str_truthy r then r else model
  | None => model
  end.

(** The exit of [_rm_model]'s loop body: go on with the next model,
    or [return] from the function. *)
Inductive LoopExit : Type := Continue | Return.

(** One iteration of the loop of [_rm_model]. *)
Definition _rm_model_step (model : string) (args : Args) : M World LoopExit :=
  let model := resolve_shortname model in
  try_except
    (let* m := lift_result (New config model args) in
     call_remove m args false >> ret Continue)
    (fun e =>
       if is_KeyError e then
         if existsb (fun prefix => startswith model (prefix +:+ "://")) (MODEL_TYPES sv)
            && negb (ignore args)
         then raise e
         else
           let* removed :=
             try_except
               (call_remove (OCI model (engine args)) args true >> ret true)
               (fun _ => ret false) in
           if removed : bool then ret Return
           else if negb (ignore args) then raise e
           else ret Continue
       else raise e).

Fixpoint _rm_model (models : list string) (args : Args) : M World unit :=
  match models with
  | [] => ret tt
  | model :: rest =>
      let* x := _rm_model_step model args in
      match x with
      | Continue => _rm_model rest args
      | Return => ret tt
      end
  end.

(** The loop of [list_files_by_modification], [models] being the list
    built so far. *)
Fixpoint scan_paths (paths : list string) (args : Args) (models : list string)
  : M World (list string) :=
  match paths with
  | [] => ret models
  | path :: rest =>
      let* missing_file :=
        if startswith path "file/" then
          let* ex := observe (fun w => path_exists sv w path) in
          ret (negb ex)
        else ret false in
      if missing_file : bool then
        perror (replace_all "file/" "file:///" path +:+ " does not exist")
        >> scan_paths rest args models
      else
        let* ex := observe (fun w => path_exists sv w path) in
        if ex : bool then scan_paths rest args (models ++ [path])
        else
          print ("Broken symlink found in: " +:+ store args +:+ "/models/" +:+ path
                 +:+ " " +:+ nl +:+ "Attempting removal")
          >> (let* m := lift_result
                          (New config (replace_first "/" "://" path) args) in
              call_remove m args false)
          >> scan_paths rest args models
  end.

Definition list_files_by_modification (args : Args) : M World (list string) :=
  let* paths := observe (rglob sv) in
  let* models := scan_paths paths args [] in
  let* w := observe (fun w => w) in
  ret (sorted_by_Z_reverse (getmtime sv w) models).

Definition entry_of_path (w : World) (path : string) : ModelEntry :=
  let name :=
    if startswith path "file/" then replace_first "/" ":///" path
    else replace_first "/" "://" path in
  mkEntry name (MSeconds (lstat_age sv w path)) (get_size sv w path).

Definition _list_models (args : Args) : M World (list ModelEntry) :=
  let* mycwd := observe (getcwd sv) in
  let dir := store args +:+ "/models/" in
  call (EvChdir dir) (chdir sv dir) >>
  let* paths := list_files_by_modification args in
  let* w := observe (fun w => w) in
  let models :=
    flat_map (fun path => if is_symlink sv w path then [entry_of_path w path] else [])
             paths in
  let* oci := call (EvOciList args) (oci_list_models sv args) in
  let models := models ++ oci in
  call (EvChdir mycwd) (chdir sv mycwd) >>
  ret models.

(** [human_duration(model["modified"]) + " ago"], or the value itself
    when the comparison with a number raises [TypeError]. *)
Definition render_modified (m : ModelEntry) : string :=
  match modified m with
  | MSeconds d => human_duration d +:+ " ago"
  | MText s => s
  end.

(** The three column widths after the first loop of [list_cli]. *)
Definition column_widths (models : list ModelEntry) : nat * nat * nat :=
  fold_left
    (fun '(name_width, modified_width, size_width) model =>
       (Nat.max name_width (String.length (name model)),
        Nat.max modified_width (String.length (render_modified model)),
        Nat.max size_width (String.length (size model))))
    (sorted_by_str name models)
    (String.length "NAME", String.length "MODIFIED", String.length "SIZE").

Definition list_row (args : Args) (widths : nat * nat * nat) (model : ModelEntry)
  : string :=
  let '(name_width, modified_width, size_width) := widths in
  if quiet args then name model
  else ljust (name model) name_width +:+ " "
       +:+ ljust (render_modified model) modified_width +:+ " "
       +:+ ljust (upper (size model)) size_width.

Definition list_cli (args : Args) : M World unit :=
  let* models := _list_models args in
  if json args then print (json_dumps sv models)
  else
    let widths := column_widths models in
    let '(name_width, modified_width, size_width) := widths in
    let* heading :=
      if quiet args then ret false
      else match noheading args with
           | Some nh => ret (negb nh && negb (json args))
           | None => raise (AttributeError "noheading")
           end in
    (if heading : bool then
       print (ljust "NAME" name_width +:+ " " +:+ ljust "MODIFIED" modified_width
              +:+ " " +:+ ljust "SIZE" size_width)
     else ret tt) >>
    for_each models (fun model => print (list_row args widths model)).

Definition rm_cli (args : Args) : M World unit :=
  if negb (all args) then
    if (length (MODEL args) =? 0)%nat
    then raise (IndexError "one MODEL or --all must be specified")
    else _rm_model (MODEL args) args
  else if (0 <? length (MODEL args))%nat
    then raise (IndexError "can not specify --all as well MODEL")
    else
      let* models := _list_models args in
      _rm_model (map name models) args.

End Orchestration.

(** ** The transport families as the specification lists them *)

Inductive Transport : Type := THuggingface | TOllama | TOCI | TURL.

(** Specification side: the prefixes that make up each family. *)
Definition spec_family_matches (t : Transport) (model : string) : bool :=
  match t with
  | THuggingface =>
      startswith model "huggingface://" || startswith model "hf://"
      || startswith model "hf.co/"
  | TOllama => startswith model "ollama://" || contains "ollama.com/library/" model
  | TOCI => startswith model "oci://" || startswith model "docker://"
  | TURL =>
      startswith model "http://" || startswith model "https://"
      || startswith model "file://"
  end.

(** Specification side: the literal prefixes of each family. *)
Definition spec_family_prefixes (t : Transport) : list string :=
  match t with
  | THuggingface => ["huggingface://"; "hf://"; "hf.co/"]
  | TOllama => ["ollama://"]
  | TOCI => ["oci://"; "docker://"]
  | TURL => ["http://"; "https://"; "file://"]
  end.

(** Specification side: the fixed priority order; the first family that
    matches owns the reference. *)
Definition spec_priority : list Transport := [THuggingface; TOllama; TOCI; TURL].

Definition spec_owner (model : string) : option Transport :=
  List.find (fun t => spec_family_matches t model) spec_priority.

Definition backend_of (t : Transport) (model : string) (args : Args) : Backend :=
  match t with
  | THuggingface => Huggingface model
  | TOllama => Ollama model
  | TOCI => OCI model (engine args)
  | TURL => URL model
  end.

(** Specification side: the default transports that select a backend. *)
Definition spec_default_transport (transport : pyval) : option Transport :=
  if bool_decide (transport = VStr "huggingface") then Some THuggingface
  else if bool_decide (transport = VStr "ollama") then Some TOllama
  else if bool_decide (transport = VStr "oci") then Some TOCI
  else None.

Definition unsupported_transport (transport : pyval) : exn :=
  KeyError ("transport " +:+ dquote +:+ py_str transport +:+ dquote
            +:+ " not supported. Must be oci, huggingface, or ollama.").

(** Specification side: the five fields an environment variable overrides. *)
Definition override_vars : list (string * string) :=
  [("container", "RAMALAMA_IN_CONTAINER");
   ("engine", "RAMALAMA_CONTAINER_ENGINE");
   ("image", "RAMALAMA_IMAGE");
   ("store", "RAMALAMA_STORE");
   ("transport", "RAMALAMA_TRANSPORT")].

(** ** A small concrete host on which the definitions are run *)

(** The world is the current directory; the store holds one local model,
    [ollama://foo], the engine knows one image, [oci://bar]; every
    subprocess exits with status 125 and no backend finds its model. *)
Definition demo_services : Services string := {|
  run_cmd := fun _ _ _ w => (Raise (CalledProcessError 125), w);
  model_remove := fun _ _ _ w => (Raise (KeyError "model not found"), w);
  oci_list_models := fun _ w => (Ok [mkEntry "oci://bar" (MText "3 weeks ago") "20 B"], w);
  shortnames_resolve := fun _ => None;
  MODEL_TYPES := ["file"; "https"; "http"; "oci"; "huggingface"; "hf"; "ollama"];
  json_dumps := fun _ => "[]";
  getcwd := fun w => w;
  chdir := fun d _ => (Ok tt, d);
  rglob := fun _ => ["ollama"; "ollama/foo"];
  path_exists := fun _ _ => true;
  is_symlink := fun _ p => String.eqb p "ollama/foo";
  getmtime := fun _ _ => 0;
  lstat_age := fun _ _ => 5;
  get_size := fun _ _ => "10 B"
|}.

Definition demo_args : Args :=
  {| engine := Some "docker"; store := "/var/lib/ramalama"; debug := false;
     ignore := false; all := false; NAME := None; MODEL := [];
     format := None; noheading := Some false; notrunc := None;
     json := false; quiet := false |}.

Definition demo_host : Host :=
  {| container_manager := Some "podman"; default_image := "quay.io/ramalama/ramalama";
     geteuid := 1000; expanduser := fun p => "/home/user" +:+ drop_str 1 p |}.

Definition demo_config : gmap string pyval := {[ "transport" := VStr "ollama" ]}.

(** Specification side: the command line of [stop], with the engine's own
    ignore flag when the engine is podman. *)
Definition stop_argv (args : Args) (name : option string) : list (option string) :=
  [engine args; Some "stop"; Some "-t=0"]
  ++ (if ignore args && bool_decide (engine args = Some "podman")
      then [Some "--ignore"; Some "True"] else [])
  ++ [name].

(** Specification side: the diagnostic stream is suppressed when ignoring
    is asked of an engine other than podman. *)
Definition stop_ignore_stderr (args : Args) : bool :=
  ignore args && negb (bool_decide (engine args = Some "podman")).

(** A host whose engine fails to remove an image it does not hold: the
    backends' [remove] ends in the [CalledProcessError] of the engine's
    subprocess. *)
Definition engine_rm_services : Services string := {|
  run_cmd := run_cmd demo_services;
  model_remove := fun _ _ _ w => (Raise (CalledProcessError 1), w);
  oci_list_models := oci_list_models demo_services;
  shortnames_resolve := shortnames_resolve demo_services;
  MODEL_TYPES := MODEL_TYPES demo_services;
  json_dumps := json_dumps demo_services;
  getcwd := getcwd demo_services;
  chdir := chdir demo_services;
  rglob := rglob demo_services;
  path_exists := path_exists demo_services;
  is_symlink := is_symlink demo_services;
  getmtime := getmtime demo_services;
  lstat_age := lstat_age demo_services;
  get_size := get_size demo_services
|}.

(** The lines a run printed, in order. *)
Definition printed (trace : list Event) : list string :=
  flat_map (fun ev => match ev with EvPrint line => [line] | _ => [] end) trace.

(** [stop --all c1], [rm --all tiny] and [stop --all] on the small host. *)
Definition demo_stop_all_named : Args :=
  {| engine := Some "docker"; store := "/var/lib/ramalama"; debug := false;
     ignore := false; all := true; NAME := Some "c1"; MODEL := [];
     format := None; noheading := None; notrunc := None;
     json := false; quiet := false |}.

Definition demo_rm_all_named : Args :=
  {| engine := Some "docker"; store := "/var/lib/ramalama"; debug := false;
     ignore := false; all := true; NAME := None; MODEL := ["tiny"];
     format := None; noheading := None; notrunc := None;
     json := false; quiet := false |}.

Definition demo_stop_all : Args :=
  {| engine := Some "docker"; store := "/var/lib/ramalama"; debug := false;
     ignore := false; all := true; NAME := None; MODEL := [];
     format := None; noheading := None; notrunc := None;
     json := false; quiet := false |}.

Definition demo_st : St string := ("/home/user", []).

(** * Further operations of the module *)

(** ** Push, its source, and the engine diagnostics *)

(** A call to a collaborator for which the trace has no event: the world
    moves on, the trace stays. *)
Definition effect {World A : Type} (f : World -> result A * World) : M World A :=
  fun st => let '(r, w') := f st.1 in (r, (w', st.2)).

Definition is_NotImplementedError (e : exn) : bool :=
  match e with NotImplementedError _ => true | _ => false end.

(** The methods of a backend that [push] and its source need: the [type]
    attribute, [exists] (only its truth value is used), [pull] and [path]
    (both answer a path) and [push]. *)
Record ModelOps (World : Type) : Type := mkModelOps {
  model_type : Backend -> string;
  model_exists : Backend -> Args -> World -> result bool * World;
  model_pull : Backend -> Args -> World -> result string * World;
  model_path : Backend -> Args -> World -> result string * World;
  model_push : Backend -> string -> Args -> World -> result unit * World
}.
Arguments model_type {World} _ _.
Arguments model_exists {World} _ _ _ _.
Arguments model_pull {World} _ _ _ _.
Arguments model_path {World} _ _ _ _.
Arguments model_push {World} _ _ _ _ _.

(** The engine an [OCI] object is built with when it comes from the
    configuration: a string or [None].  [Backend] has no place for a value
    of another type, which the properties exclude by hypothesis. *)
Definition conman_of (v : pyval) : option string :=
  match v with
  | VStr s => Some s
  | _ => None
  end.

(** What [engine_info] returns: the empty list, the decoded JSON, or the
    text of a [FileNotFoundError]. *)
Inductive EngineInfo (J : Type) : Type :=
  | InfoEmpty
  | InfoJson (j : J)
  | InfoMessage (msg : string).
Arguments InfoEmpty {J}.
Arguments InfoJson {J} j.
Arguments InfoMessage {J} msg.

Section Push.
Context {World : Type} (sv : Services World) (ops : ModelOps World).
Variable config : gmap string pyval.
Variable host : Host.

(** [_get_source(args)]; [SOURCE] is the attribute [args.SOURCE], which only
    [push] and [convert] define. *)
Definition _get_source (SOURCE : string) (args : Args) : M World string :=
  let* ex := observe (fun w => path_exists sv w SOURCE) in
  if ex : bool then ret SOURCE
  else
    let src := resolve_shortname sv SOURCE in
    let* smodel := lift_result (New config src args) in
    if String.eqb (model_type ops smodel) "OCI" then ret src
    else
      let* there := effect (model_exists ops smodel args) in
      if negb there then effect (model_pull ops smodel args)
      else effect (model_path ops smodel args).

(** [push_cli(args)], with the attributes [args.SOURCE] and [args.TARGET]. *)
Definition push_cli (SOURCE : string) (TARGET : option string) (args : Args)
  : M World unit :=
  let* ts :=
    if opt_truthy TARGET then
      let* source := _get_source SOURCE args in
      ret (default EmptyString TARGET, source)
    else ret (SOURCE, SOURCE) in
  let target := ts.1 in
  let source := ts.2 in
  let tgt := resolve_shortname sv target in
  try_except
    (let* model := lift_result (New config tgt args) in
     effect (model_push ops model source args))
    (fun e =>
       if is_NotImplementedError e then
         if existsb (fun mtype => startswith tgt (mtype +:+ "://")) (MODEL_TYPES sv)
         then raise e
         else
           try_except
             (effect (model_push ops
                        (OCI tgt (conman_of (dict_get config "engine"
                                               (opt_str (container_manager host)))))
                        source args))
             (fun _ => raise e)
       else raise e).

(** [engine_info(args)]; [json_loads] is [json.loads]. *)
Definition engine_info {J : Type} (json_loads : string -> result J) (args : Args)
  : M World (EngineInfo J) :=
  let conman := engine args in
  if bool_decide (conman = Some EmptyString) then
    raise (ValueError "no container manager (Podman, Docker) found")
  else
    let conman_args := [conman; Some "info"; Some "--format"; Some "json"] in
    try_except
      (let* out := call_run_cmd sv conman_args false (debug args) in
       let output := strip out in
       if String.eqb output EmptyString then ret InfoEmpty
       else
         let* j := lift_result (json_loads output) in
         ret (InfoJson j))
      (fun e =>
         match e with
         | FileNotFoundError msg => ret (InfoMessage msg)
         | _ => raise e
         end).
End Push.

(** ** GPU report *)

(** The detector of [ramalama.gpu_detector], [platform.system()] and
    [str(e)] for the exceptions a probe raises.  A probe answers a list of
    dictionaries ([None] counts as the empty list: only its truth value and
    its elements are used). *)
Record GPUDetector (World : Type) : Type := mkGPUDetector {
  platform_system : string;
  get_macos_gpu : World -> result (list (gmap string pyval)) * World;
  get_nvidia_gpu : World -> result (list (gmap string pyval)) * World;
  get_amd_gpu : World -> result (list (gmap string pyval)) * World;
  get_intel_gpu : World -> result (list (gmap string pyval)) * World;
  exn_str : exn -> string
}.
Arguments platform_system {World} _.
Arguments get_macos_gpu {World} _ _.
Arguments get_nvidia_gpu {World} _ _.
Arguments get_amd_gpu {World} _ _.
Arguments get_intel_gpu {World} _ _.
Arguments exn_str {World} _ _.

(** The dictionary [show_gpus_available_cli] returns: [Detected GPUs], and
    [INFO], which is the list of errors or the string [No errors]. *)
Record GpuReport : Type := mkGpuReport {
  detected_gpus : list (gmap string pyval);
  gpu_info_field : list (gmap string pyval) + string
}.

Definition vendor_info (vendor info : string) : gmap string pyval :=
  {[ "Vendor" := VStr vendor; "INFO" := VStr info ]}.

Definition no_gpu_placeholder : gmap string pyval :=
  {[ "GPU" := VStr "None"; "VRAM" := VStr "N/A"; "INFO" := VStr "No GPUs detected" ]}.

Section Gpu.
Context {World : Type} (det : GPUDetector World).

(** One [try] block: the probe's GPUs extend [gpu_info]; an empty answer or
    an exception appends one entry to [errors]. *)
Definition gpu_probe (vendor none_msg : string)
    (probe : World -> result (list (gmap string pyval)) * World)
    (acc : list (gmap string pyval) * list (gmap string pyval))
  : M World (list (gmap string pyval) * list (gmap string pyval)) :=
  try_except
    (let* gpus := effect probe in
     match gpus with
     | _ :: _ => ret (acc.1 ++ gpus, acc.2)
     | [] => ret (acc.1, acc.2 ++ [vendor_info vendor none_msg])
     end)
    (fun e => ret (acc.1, acc.2 ++ [vendor_info vendor (exn_str det e)])).

Definition show_gpus_available_cli : M World GpuReport :=
  let* acc :=
    if String.eqb (platform_system det) "Darwin" then
      gpu_probe "Apple" "No GPU detected on macOS." (get_macos_gpu det) ([], [])
    else
      let* acc := gpu_probe "NVIDIA" "No NVIDIA GPU detected or drivers missing."
                            (get_nvidia_gpu det) ([], []) in
      let* acc := gpu_probe "AMD" "No AMD GPU detected or drivers missing."
                            (get_amd_gpu det) acc in
      gpu_probe "Intel" "No Intel GPU detected or drivers missing."
                (get_intel_gpu det) acc in
  ret {| detected_gpus := match acc.1 with
                          | [] => [no_gpu_placeholder]
                          | _ :: _ => acc.1
                          end;
         gpu_info_field := match acc.2 with
                           | [] => inr "No errors"
                           | _ :: _ => inl acc.2
                           end |}.
End Gpu.

(** What one probe contributes to the report: the GPUs it returned, and the
    error entry it leaves when it returned none or raised. *)
Definition probe_found (r : result (list (gmap string pyval)))
  : list (gmap string pyval) :=
  match r with
  | Ok gpus => gpus
  | Raise _ => []
  end.

Definition probe_error {World : Type} (det : GPUDetector World)
    (vendor none_msg : string) (r : result (list (gmap string pyval)))
  : list (gmap string pyval) :=
  match r with
  | Ok [] => [vendor_info vendor none_msg]
  | Ok (_ :: _) => []
  | Raise e => [vendor_info vendor (exn_str det e)]
  end.

(** The probes of the platform, run in the order of the source from the
    world [w], each from the world the one before left: the vendor, the
    text for an empty answer and the outcome of each, and the last world. *)
Definition probe_outcomes {World : Type} (det : GPUDetector World) (w : World)
  : list (string * string * result (list (gmap string pyval))) * World :=
  if String.eqb (platform_system det) "Darwin" then
    let o := get_macos_gpu det w in
    ([("Apple", "No GPU detected on macOS.", o.1)], o.2)
  else
    let o1 := get_nvidia_gpu det w in
    let o2 := get_amd_gpu det o1.2 in
    let o3 := get_intel_gpu det o2.2 in
    ([("NVIDIA", "No NVIDIA GPU detected or drivers missing.", o1.1);
      ("AMD", "No AMD GPU detected or drivers missing.", o2.1);
      ("Intel", "No Intel GPU detected or drivers missing.", o3.1)], o3.2).

Definition found_gpus (outs : list (string * string * result (list (gmap string pyval))))
  : list (gmap string pyval) :=
  flat_map (fun o => probe_found o.2) outs.

Definition probe_errors {World : Type} (det : GPUDetector World)
    (outs : list (string * string * result (list (gmap string pyval))))
  : list (gmap string pyval) :=
  flat_map (fun o => probe_error det o.1.1 o.1.2 o.2) outs.

(** The report for the GPUs found and the errors left. *)
Definition gpu_report (found errors : list (gmap string pyval)) : GpuReport :=
  {| detected_gpus := match found with
                      | [] => [no_gpu_placeholder]
                      | _ :: _ => found
                      end;
     gpu_info_field := match errors with
                       | [] => inr "No errors"
                       | _ :: _ => inl errors
                       end |}.

(** A Linux host with an NVIDIA card, no AMD tooling and no Intel GPU. *)
Definition demo_gpu : gmap string pyval :=
  {[ "GPU" := VStr "NVIDIA RTX 4090"; "VRAM" := VStr "24564 MiB" ]}.

Definition demo_detector : GPUDetector string := {|
  platform_system := "Linux";
  get_macos_gpu := fun w => (Ok [], w);
  get_nvidia_gpu := fun w => (Ok [demo_gpu], w);
  get_amd_gpu := fun w => (Raise (FileNotFoundError "rocm-smi"), w);
  get_intel_gpu := fun w => (Ok [], w);
  exn_str := fun e =>
    match e with
    | FileNotFoundError f => "No such file or directory: " +:+ f
    | _ => "error"
    end
|}.

(** ** [load_config] *)

Fixpoint endswith_char (s : string) (c : ascii) : bool :=
  match s with
  | EmptyString => false
  | String d s' =>
      match s' with
      | EmptyString => Ascii.eqb d c
      | String _ _ => endswith_char s' c
      end
  end.

(** [os.path.join(a, b)] on POSIX. *)
Definition path_join (a b : string) : string :=
  if startswith b "/" then b
  else if String.eqb a EmptyString || endswith_char a "/" then a +:+ b
  else a +:+ "/" +:+ b.

(** What [load_config] sees of the filesystem, and the TOML parser: one
    parser object reads all the files, so it is a state [P] that each
    [parse_file] may change. *)
Record ConfigFiles (P : Type) : Type := mkConfigFiles {
  cf_exists : string -> bool;
  cf_isdir : string -> bool;
  cf_glob_conf : string -> list string;
  parse_file : string -> P -> result (gmap string (gmap string pyval)) * P
}.
Arguments cf_exists {P} _ _.
Arguments cf_isdir {P} _ _.
Arguments cf_glob_conf {P} _ _.
Arguments parse_file {P} _ _ _.

Section LoadConfig.
Context {P : Type} (fs : ConfigFiles P).
Variable host : Host.
Variable environ : gmap string string.

Definition config_paths : list string :=
  let config_home :=
    match environ !! "XDG_CONFIG_HOME" with
    | Some v => v
    | None => path_join "~" ".config"
    end in
  ["/usr/share/ramalama/ramalama.conf";
   "/usr/local/share/ramalama/ramalama.conf";
   "/etc/ramalama/ramalama.conf"]
  ++ [expanduser host (path_join (path_join config_home "ramalama") "ramalama.conf")].

(** The inner loop over the drop-in files. *)
Fixpoint load_conf_files (files : list string)
    (config : gmap string (gmap string pyval))
  : M P (gmap string (gmap string pyval)) :=
  match files with
  | [] => ret config
  | conf_file :: rest =>
      let* config := effect (parse_file fs conf_file) in
      load_conf_files rest config
  end.

(** The loop over the configuration paths. *)
Fixpoint load_paths (paths : list string) (config : gmap string (gmap string pyval))
  : M P (gmap string (gmap string pyval)) :=
  match paths with
  | [] => ret config
  | path :: rest =>
      let* config :=
        if cf_exists fs path then effect (parse_file fs path) else ret config in
      let* config :=
        if cf_isdir fs (path +:+ ".d")
        then load_conf_files (sorted_by_str id (cf_glob_conf fs (path +:+ ".d"))) config
        else ret config in
      load_paths rest config
  end.

Definition load_config : M P (gmap string (gmap string pyval)) :=
  match environ !! "RAMALAMA_CONFIG" with
  | Some config_path =>
      if str_truthy config_path then effect (parse_file fs config_path)
      else load_paths config_paths ∅
  | None => load_paths config_paths ∅
  end.

(** Specification side: the files read when [RAMALAMA_CONFIG] is not set,
    in reading order. *)
Definition config_files : list string :=
  flat_map
    (fun path =>
       (if cf_exists fs path then [path] else [])
       ++ (if cf_isdir fs (path +:+ ".d")
           then sorted_by_str id (cf_glob_conf fs (path +:+ ".d")) else []))
    config_paths.
End LoadConfig.

(** ** Specification-side vocabulary for the further properties *)

(** The keys [load_and_merge_config] writes. *)
Definition managed_keys : list string :=
  ["container"; "engine"; "image"; "nocontainer"; "carimage"; "runtime";
   "store"; "transport"].

(** The hard-coded default of each key that has a plain one. *)
Definition config_default (h : Host) (field : string) : pyval :=
  if String.eqb field "engine" then opt_str (container_manager h)
  else if String.eqb field "image" then VStr (default_image h)
  else if String.eqb field "store" then VStr (get_store h)
  else if String.eqb field "transport" then VStr "ollama"
  else if String.eqb field "runtime" then VStr "llama.cpp"
  else if String.eqb field "carimage"
       then VStr "registry.access.redhat.com/ubi9-micro:latest"
  else if String.eqb field "nocontainer" then VBool false
  else VNone.

(** The environment variable that overrides a key, if there is one. *)
Definition override_var (field : string) : option string :=
  snd <$> List.find (fun fv => String.eqb (fst fv) field) override_vars.

(** The reference a backend object was built from. *)
Definition backend_reference (b : Backend) : string :=
  match b with
  | Huggingface m => m
  | Ollama m => m
  | OCI m _ => m
  | URL m => m
  end.

(** The units [human_duration] counts in, with their length in seconds. *)
Definition duration_table : list (string * Z) :=
  [("second", 1); ("minute", 60); ("hour", 3600); ("day", 86400);
   ("week", 604800); ("month", 2419200); ("year", 31536000)].

(** A host whose world is the list of references stored: the OCI backend
    removes images (references without [://]), the other backends models
    (references with [://]), each when it is there, and raises [KeyError]
    otherwise; the engine lists two containers and stops whatever it is asked
    to; [tiny] is a short name. *)
Definition live_remove (b : Backend) (w : list string) : result unit * list string :=
  let r := backend_reference b in
  let image := negb (contains "://" r) in
  let mine := match b with OCI _ _ => image | _ => negb image end in
  if mine && str_in r w
  then (Ok tt, filter (fun x => x <> r) w)
  else (Raise (KeyError "model not found"), w).

Definition live_services : Services (list string) := {|
  run_cmd := fun argv _ _ w =>
    if bool_decide (argv !! 1%nat = Some (Some "ps"))
    then (Ok ("c1" +:+ nl +:+ "c2" +:+ nl), w)
    else (Ok EmptyString, w);
  model_remove := fun b _ _ w => live_remove b w;
  oci_list_models := fun _ w => (Ok [], w);
  shortnames_resolve := fun s =>
    if String.eqb s "tiny" then Some "ollama://tinyllama" else None;
  MODEL_TYPES := ["file"; "https"; "http"; "oci"; "huggingface"; "hf"; "ollama"];
  json_dumps := fun _ => "[]";
  getcwd := fun _ => "/home/user";
  chdir := fun _ w => (Ok tt, w);
  rglob := fun _ => [];
  path_exists := fun _ p => String.eqb p "model.gguf";
  is_symlink := fun _ _ => false;
  getmtime := fun _ _ => 0;
  lstat_age := fun _ _ => 0;
  get_size := fun _ _ => "0 B"
|}.

Definition live_st : St (list string) :=
  (["ollama://tinyllama"; "quay.io/models/m:latest"], []).

(** Specification side: the command line of [ps]: the label filter first,
    then the flags asked for. *)
Definition ps_flags (args : Args) : list (option string) :=
  (if default false (noheading args) then [Some "--noheading"] else [])
  ++ (if default false (notrunc args) then [Some "--no-trunc"] else [])
  ++ (if opt_truthy (format args)
      then [Some ("--format=" +:+ default EmptyString (format args))] else []).

Definition ps_argv (args : Args) : list (option string) :=
  [engine args; Some "ps"; Some "-a"; Some "--filter"; Some "label=ai.ramalama"]
  ++ ps_flags args.

(** The lines of an output: none when it is blank. *)
Definition output_lines (out : string) : list string :=
  if String.eqb (strip out) EmptyString then [] else split_char nl_char (strip out).

(** The arguments [stop --all] works with. *)
Definition stop_all_args (args : Args) : Args :=
  set_format (set_ignore args true) "{{ .Names }}".

Definition demo_ps_args : Args :=
  {| engine := Some "podman"; store := "/var/lib/ramalama"; debug := false;
     ignore := false; all := false; NAME := None; MODEL := [];
     format := Some "json"; noheading := Some true; notrunc := Some false;
     json := false; quiet := false |}.

(** Specification side: the stop command [stop --all] issues for one
    container name. *)
Definition stop_all_event (args : Args) (n : string) : Event :=
  if bool_decide (engine args = Some "podman")
  then EvRunCmd [Some "podman"; Some "stop"; Some "-t=0"; Some "--ignore";
                 Some "True"; Some n] false (debug args)
  else EvRunCmd [engine args; Some "stop"; Some "-t=0"; Some n] true (debug args).



(** The first attempt of a step of [_rm_model]: the state after it and the
    error it left, if any. *)
Definition first_attempt {World : Type} (sv : Services World)
    (config : gmap string pyval) (model : string) (args : Args) (st : St World)
  : result unit * St World :=
  match New config (resolve_shortname sv model) args with
  | Ok b =>
      let '(r, w') := model_remove sv b args false st.1 in
      (r, (w', st.2 ++ [EvRemove b args false]))
  | Raise e => (Raise e, st)
  end.

(** Whether the name carries the prefix of one of [MODEL_TYPES]. *)
Definition has_model_type_prefix {World : Type} (sv : Services World) (model : string)
  : bool :=
  existsb (fun prefix => startswith model (prefix +:+ "://")) (MODEL_TYPES sv).

(** Specification side: the removal [rm] asks of the backend a name
    resolves to. *)
Definition removal_event {World : Type} (sv : Services World)
    (config : gmap string pyval) (args : Args) (model : string) : list Event :=
  match New config (resolve_shortname sv model) args with
  | Ok b => [EvRemove b args false]
  | Raise _ => []
  end.

(** A host on which every removal succeeds. *)
Definition obliging_services : Services (list string) := {|
  run_cmd := run_cmd live_services;
  model_remove := fun b _ _ w => (Ok tt, filter (fun x => x <> backend_reference b) w);
  oci_list_models := oci_list_models live_services;
  shortnames_resolve := shortnames_resolve live_services;
  MODEL_TYPES := MODEL_TYPES live_services;
  json_dumps := json_dumps live_services;
  getcwd := getcwd live_services;
  chdir := chdir live_services;
  rglob := rglob live_services;
  path_exists := path_exists live_services;
  is_symlink := is_symlink live_services;
  getmtime := getmtime live_services;
  lstat_age := lstat_age live_services;
  get_size := get_size live_services
|}.

(** Specification side: the heading of the listing. *)
Definition list_heading (widths : nat * nat * nat) : string :=
  ljust "NAME" widths.1.1 +:+ " " +:+ ljust "MODIFIED" widths.1.2 +:+ " "
  +:+ ljust "SIZE" widths.2.

(** Specification side: the lines [list] prints outside JSON mode. *)
Definition list_lines (args : Args) (nh : bool) (models : list ModelEntry) : list string :=
  (if negb (quiet args) && negb nh then [list_heading (column_widths models)] else [])
  ++ map (list_row args (column_widths models)) models.

(** Specification side: the directories of the store that hold models, with
    the family of the references kept in each. *)
Definition store_dirs : list (string * Transport) :=
  [("huggingface", THuggingface); ("ollama", TOllama); ("oci", TOCI)].

(** A store with a dangling link [ollama/gone] next to [ollama/foo]; the
    backends find nothing to remove. *)
Definition dangling_services : Services string := {|
  run_cmd := run_cmd demo_services;
  model_remove := model_remove demo_services;
  oci_list_models := oci_list_models demo_services;
  shortnames_resolve := shortnames_resolve demo_services;
  MODEL_TYPES := MODEL_TYPES demo_services;
  json_dumps := json_dumps demo_services;
  getcwd := getcwd demo_services;
  chdir := chdir demo_services;
  rglob := fun _ => ["ollama/foo"; "ollama/gone"; "ollama/bar"];
  path_exists := fun _ p => String.eqb p "ollama/foo";
  is_symlink := is_symlink demo_services;
  getmtime := getmtime demo_services;
  lstat_age := lstat_age demo_services;
  get_size := get_size demo_services
|}.

(** A store where the file behind [file/tmp/m.gguf] is gone. *)
Definition missing_file_services : Services string := {|
  run_cmd := run_cmd demo_services;
  model_remove := model_remove demo_services;
  oci_list_models := oci_list_models demo_services;
  shortnames_resolve := shortnames_resolve demo_services;
  MODEL_TYPES := MODEL_TYPES demo_services;
  json_dumps := json_dumps demo_services;
  getcwd := getcwd demo_services;
  chdir := chdir demo_services;
  rglob := fun _ => ["ollama/foo"; "file/tmp/m.gguf"; "ollama"];
  path_exists := fun _ p => negb (String.eqb p "file/tmp/m.gguf");
  is_symlink := is_symlink demo_services;
  getmtime := getmtime demo_services;
  lstat_age := lstat_age demo_services;
  get_size := get_size demo_services
|}.

(** Specification side: the entries of the local models, newest first. *)
Definition local_entries {World : Type} (sv : Services World) (w : World)
  : list ModelEntry :=
  flat_map (fun path => if is_symlink sv w path then [entry_of_path sv w path] else [])
           (sorted_by_Z_reverse (getmtime sv w) (rglob sv w)).

(** The message [list_files_by_modification] prints for a dangling link. *)
Definition broken_symlink_message (args : Args) (path : string) : string :=
  "Broken symlink found in: " +:+ store args +:+ "/models/" +:+ path
  +:+ " " +:+ nl +:+ "Attempting removal".

(** Specification side: the first lines of [push_cli], which choose the
    target and the source. *)
Definition push_operands {World : Type} (sv : Services World) (ops : ModelOps World)
    (config : gmap string pyval) (SOURCE : string) (TARGET : option string)
    (args : Args) : M World (string * string) :=
  if opt_truthy TARGET then
    let* source := _get_source sv ops config SOURCE args in
    ret (default EmptyString TARGET, source)
  else ret (SOURCE, SOURCE).

(** Backends over the store of references: only the OCI backend can push;
    a model exists when its reference is stored, and pulling stores it. *)
Definition live_ops : ModelOps (list string) := {|
  model_type := fun b =>
    match b with
    | OCI _ _ => "OCI"
    | Ollama _ => "Ollama"
    | Huggingface _ => "HuggingFace"
    | URL _ => "URL"
    end;
  model_exists := fun b _ w => (Ok (str_in (backend_reference b) w), w);
  model_pull := fun b _ w =>
    (Ok ("/store/" +:+ backend_reference b), backend_reference b :: w);
  model_path := fun b _ w => (Ok ("/store/" +:+ backend_reference b), w);
  model_push := fun b source _ w =>
    match b with
    | OCI m _ => (Ok tt, (m +:+ "<-" +:+ source) :: w)
    | _ => (Raise (NotImplementedError "push is not supported"), w)
    end
|}.

(** Configuration files: the system file, one drop-in directory with two
    files, and the file of the user; the parser state is the list of the
    files read so far, and parsing a file answers a table that names it. *)
Definition demo_config_files : ConfigFiles (list string) := {|
  cf_exists := fun p =>
    str_in p ["/usr/share/ramalama/ramalama.conf";
              "/home/user/.config/ramalama/ramalama.conf"; "/tmp/my.conf"];
  cf_isdir := fun p => String.eqb p "/etc/ramalama/ramalama.conf.d";
  cf_glob_conf := fun d => [d +:+ "/20-b.conf"; d +:+ "/10-a.conf"];
  parse_file := fun p st =>
    (Ok {[ "ramalama" := {[ "image" := VStr p ]} ]}, st ++ [p])
|}.

(** * Properties *)

(** ** [human_duration] *)

(** C9: [human_duration] maps 0 to [Less than a second], 1 to [1 second],
    59 to [59 seconds], 3661 to [1 hour], 90000 to [1 day] and 31536001 to
    [1 year]. *)
Theorem human_duration_boundaries :
  human_duration 0 = "Less than a second"
  /\ human_duration 1 = "1 second"
  /\ human_duration 59 = "59 seconds"
  /\ human_duration 3661 = "1 hour"
  /\ human_duration 90000 = "1 day"
  /\ human_duration 31536001 = "1 year".
Proof. repeat split; vm_compute; reflexivity. Qed.

(** The thresholds are sharp: the value just below each one still belongs
    to the previous bracket. *)
Lemma human_duration_thresholds :
  human_duration 60 = "1 minute" /\ human_duration 119 = "1 minute"
  /\ human_duration 120 = "2 minutes" /\ human_duration 3599 = "59 minutes"
  /\ human_duration 3600 = "1 hour" /\ human_duration 7199 = "1 hour"
  /\ human_duration 7200 = "2 hours" /\ human_duration 86399 = "23 hours"
  /\ human_duration 86400 = "1 day" /\ human_duration 172800 = "2 days"
  /\ human_duration 31535999 = "13 months" /\ human_duration 31536000 = "1 year"
  /\ human_duration 63072000 = "2 years" /\ human_duration (-5) = "Less than a second".
Proof. repeat split; vm_compute; reflexivity. Qed.

(** ** String helpers *)

Lemma startswith_app (p s : string) : startswith (p +:+ s) p = true.
Proof.
  induction p as [|c p IH]; simpl; [reflexivity|].
  rewrite Ascii.eqb_refl. exact IH.
Qed.

Lemma str_eqb_false (s t : string) : s <> t -> String.eqb s t = false.
Proof. intros H. apply String.eqb_neq. exact H. Qed.

(** ** [normalize_registry] *)

Lemma normalize_registry_oci_prefix (r : string) :
  startswith r "oci://" = true -> normalize_registry (Some r) = "oci://".
Proof.
  intros H. unfold normalize_registry. rewrite H.
  rewrite !orb_true_r. reflexivity.
Qed.

Lemma normalize_registry_other (r : string) :
  r <> EmptyString -> startswith r "oci://" = false ->
  r <> "ollama" -> r <> "hfhuggingface" ->
  normalize_registry (Some r) = "oci://" +:+ r.
Proof.
  intros Hne Hp Ho Hh.
  unfold normalize_registry, str_truthy, str_in, registry_passthrough.
  rewrite Hp, (str_eqb_false _ _ Hne). simpl.
  rewrite (str_eqb_false _ _ Ho), (str_eqb_false _ _ Hh). reflexivity.
Qed.

(** C10: [normalize_registry] sends [None], the empty string and every
    string starting with [oci://] to [oci://]; it returns [ollama] and the
    literal [hfhuggingface] unchanged; it prepends [oci://] to every other
    value, so [hf] and [huggingface] become [oci://hf] and
    [oci://huggingface], and [login_cli] hands them to the OCI backend. *)
Theorem normalize_registry_cases (r : string) :
  normalize_registry None = "oci://"
  /\ normalize_registry (Some EmptyString) = "oci://"
  /\ (startswith r "oci://" = true -> normalize_registry (Some r) = "oci://")
  /\ normalize_registry (Some "ollama") = "ollama"
  /\ normalize_registry (Some "hfhuggingface") = "hfhuggingface"
  /\ (r <> EmptyString -> startswith r "oci://" = false ->
      r <> "ollama" -> r <> "hfhuggingface" ->
      normalize_registry (Some r) = "oci://" +:+ r)
  /\ normalize_registry (Some "hf") = "oci://hf"
  /\ normalize_registry (Some "huggingface") = "oci://huggingface"
  /\ (forall config args,
        login_backend config args (Some "hf") = Ok (OCI "oci://hf" (engine args))
        /\ login_backend config args (Some "huggingface")
           = Ok (OCI "oci://huggingface" (engine args))).
Proof.
  repeat split; try reflexivity.
  - apply normalize_registry_oci_prefix.
  - apply normalize_registry_other.
Qed.

Lemma normalize_registry_cases_witness :
  normalize_registry (Some "quay.io") = "oci://quay.io"
  /\ normalize_registry (Some "oci://quay.io/models") = "oci://".
Proof.
  split.
  - apply (normalize_registry_cases "quay.io"); [discriminate | reflexivity
                                                 | discriminate | discriminate].
  - apply (normalize_registry_cases "oci://quay.io/models"). reflexivity.
Defined.

(** ** [New] *)

(** [New] on a reference that some family matches: it returns the backend of
    the first family of the priority list that matches. *)
Lemma New_first_match (config : gmap string pyval) (model : string) (args : Args) :
  forall t, spec_owner model = Some t ->
            New config model args = Ok (backend_of t model args).
Proof.
  intros t. unfold spec_owner, spec_priority, New.
  cbv [List.find spec_family_matches].
  destruct (startswith model "huggingface://" || startswith model "hf://"
            || startswith model "hf.co/");
    [intros [= <-]; reflexivity|].
  destruct (startswith model "ollama://" || contains "ollama.com/library/" model);
    [intros [= <-]; reflexivity|].
  destruct (startswith model "oci://" || startswith model "docker://");
    [intros [= <-]; reflexivity|].
  destruct (startswith model "http://" || startswith model "https://"
            || startswith model "file://");
    [intros [= <-]; reflexivity|].
  discriminate.
Qed.

(** [New] on a reference that no family matches: the default transport
    decides. *)
Lemma New_no_match (config : gmap string pyval) (model : string) (args : Args) :
  spec_owner model = None ->
  New config model args =
  match spec_default_transport (dict_get config "transport" (VStr "ollama")) with
  | Some t => Ok (backend_of t model args)
  | None => Raise (unsupported_transport (dict_get config "transport" (VStr "ollama")))
  end.
Proof.
  unfold spec_owner, spec_priority, New.
  cbv [List.find spec_family_matches].
  destruct (startswith model "huggingface://" || startswith model "hf://"
            || startswith model "hf.co/"); [discriminate|].
  destruct (startswith model "ollama://" || contains "ollama.com/library/" model);
    [discriminate|].
  destruct (startswith model "oci://" || startswith model "docker://");
    [discriminate|].
  destruct (startswith model "http://" || startswith model "https://"
            || startswith model "file://"); [discriminate|].
  intros _. unfold spec_default_transport.
  destruct (dict_get config "transport" (VStr "ollama")) as [| b | z | s];
    try reflexivity.
  simpl py_eq_str.
  destruct (String.eqb_spec s "huggingface") as [-> | H1]; [reflexivity|].
  destruct (String.eqb_spec s "ollama") as [-> | H2]; [reflexivity|].
  destruct (String.eqb_spec s "oci") as [-> | H3]; [reflexivity|].
  rewrite !bool_decide_eq_false_2; [reflexivity | congruence..].
Qed.

(** C1: a reference that begins with a recognized transport prefix resolves
    to the backend of the first family, in the order Huggingface, Ollama,
    OCI, URL, that matches it, whatever the configured default transport. *)
Theorem New_explicit_prefix (model : string) (args : Args) (t : Transport)
    (Hmatch : spec_owner model = Some t) :
  forall config : gmap string pyval,
    New config model args = Ok (backend_of t model args).
Proof. intros config. apply New_first_match. exact Hmatch. Qed.

Lemma New_explicit_prefix_witness :
  New {[ "transport" := VStr "huggingface" ]} "oci://quay.io/m" demo_args
  = Ok (OCI "oci://quay.io/m" (Some "docker")).
Proof. apply (New_explicit_prefix "oci://quay.io/m" demo_args TOCI). reflexivity. Defined.

(** Each prefix of the list selects its family when no earlier family
    matches; the Huggingface prefixes, being first, always do. *)
Lemma New_prefix_table (config : gmap string pyval) (rest : string) (args : Args) :
  New config ("huggingface://" +:+ rest) args = Ok (Huggingface ("huggingface://" +:+ rest))
  /\ New config ("hf://" +:+ rest) args = Ok (Huggingface ("hf://" +:+ rest))
  /\ New config ("hf.co/" +:+ rest) args = Ok (Huggingface ("hf.co/" +:+ rest))
  /\ New config ("ollama://" +:+ rest) args = Ok (Ollama ("ollama://" +:+ rest))
  /\ (contains "ollama.com/library/" rest = false ->
      New config ("oci://" +:+ rest) args = Ok (OCI ("oci://" +:+ rest) (engine args))
      /\ New config ("docker://" +:+ rest) args
         = Ok (OCI ("docker://" +:+ rest) (engine args))
      /\ New config ("http://" +:+ rest) args = Ok (URL ("http://" +:+ rest))
      /\ New config ("https://" +:+ rest) args = Ok (URL ("https://" +:+ rest))
      /\ New config ("file://" +:+ rest) args = Ok (URL ("file://" +:+ rest))).
Proof.
  split; [reflexivity|]. split; [reflexivity|]. split; [reflexivity|].
  split; [reflexivity|]. intros H.
  repeat apply conj; unfold New; cbv in H |- *; rewrite H; reflexivity.
Qed.

(** The literal prefixes are disjoint: a reference that begins with a prefix
    of family [t] is owned by [t], unless the Ollama family claims it through
    [ollama.com/library/]. *)
Lemma spec_owner_of_prefix (t : Transport) (p rest : string) :
  In p (spec_family_prefixes t) ->
  contains "ollama.com/library/" rest = false ->
  spec_owner (p +:+ rest) = Some t.
Proof.
  intros Hin Hc. destruct t; simpl in Hin;
    repeat (destruct Hin as [<- | Hin]); try contradiction;
    try reflexivity;
    cbv in Hc |- *; rewrite Hc; reflexivity.
Qed.

(** The families overlap: a reference can begin with [oci://] or [https://]
    and contain [ollama.com/library/]; the Ollama family is tested first and
    wins. *)
Lemma New_overlap :
  forall config args,
    New config "oci://ollama.com/library/tiny" args
    = Ok (Ollama "oci://ollama.com/library/tiny")
    /\ New config "https://ollama.com/library/tiny" args
       = Ok (Ollama "https://ollama.com/library/tiny").
Proof. split; reflexivity. Qed.

(** C2: a reference that matches no prefix resolves to the backend of the
    configured default transport when that is huggingface, ollama or oci, and
    otherwise, and only then, raises an error that names the transport;
    resolving leaves the world and the trace as they were. *)
Theorem New_default_transport (config : gmap string pyval) (model : string)
    (args : Args) (Hnone : spec_owner model = None) :
  (forall t, spec_default_transport (dict_get config "transport" (VStr "ollama")) = Some t ->
             New config model args = Ok (backend_of t model args))
  /\ (spec_default_transport (dict_get config "transport" (VStr "ollama")) = None ->
      New config model args
      = Raise (KeyError ("transport " +:+ dquote
                         +:+ py_str (dict_get config "transport" (VStr "ollama"))
                         +:+ dquote
                         +:+ " not supported. Must be oci, huggingface, or ollama.")))
  /\ ((exists e, New config model args = Raise e)
      <-> dict_get config "transport" (VStr "ollama") <> VStr "huggingface"
          /\ dict_get config "transport" (VStr "ollama") <> VStr "ollama"
          /\ dict_get config "transport" (VStr "ollama") <> VStr "oci")
  /\ (forall (World : Type) (st : St World),
        (lift_result (New config model args) st).2 = st).
Proof.
  pose proof (New_no_match config model args Hnone) as HN.
  split; [|split; [|split]].
  - intros t Ht. rewrite HN, Ht. reflexivity.
  - intros Ht. rewrite HN, Ht. reflexivity.
  - rewrite HN. unfold spec_default_transport.
    repeat case_bool_decide; split;
      try (intros [e He]; discriminate He);
      try (intros (? & ? & ?); congruence);
      try (intros _; repeat split; assumption);
      try (intros _; eexists; reflexivity).
  - intros World st. destruct (New config model args); reflexivity.
Qed.

Lemma New_default_transport_witness :
  New {[ "transport" := VStr "oci" ]} "tinyllama" demo_args
  = Ok (OCI "tinyllama" (Some "docker"))
  /\ New {[ "transport" := VStr "s3" ]} "tinyllama" demo_args
     = Raise (KeyError ("transport " +:+ dquote +:+ "s3" +:+ dquote
                        +:+ " not supported. Must be oci, huggingface, or ollama.")).
Proof.
  split.
  - apply (proj1 (New_default_transport {[ "transport" := VStr "oci" ]} "tinyllama"
                      demo_args eq_refl) TOCI).
    reflexivity.
  - exact (proj1 (proj2 (New_default_transport {[ "transport" := VStr "s3" ]}
                           "tinyllama" demo_args eq_refl)) eq_refl).
Defined.

(** ** [load_and_merge_config] *)

Lemma dict_get_insert_ne (d : gmap string pyval) (k k' : string) (v dflt : pyval) :
  k <> k' -> dict_get (<[k := v]> d) k' dflt = dict_get d k' dflt.
Proof. intros H. unfold dict_get. rewrite lookup_insert_ne by exact H. reflexivity. Qed.

Lemma getenv_present (environ : gmap string string) (k v : string) (dflt : pyval) :
  environ !! k = Some v -> getenv environ k dflt = VStr v.
Proof. intros H. unfold getenv. rewrite H. reflexivity. Qed.

Lemma dict_get_insert_eq (d : gmap string pyval) (k : string) (v dflt : pyval) :
  dict_get (<[k := v]> d) k dflt = v.
Proof. unfold dict_get. rewrite lookup_insert_eq. reflexivity. Qed.

(** The [container] entry of the merged configuration. *)
Lemma merged_container (h : Host) (environ : gmap string string)
    (config : gmap string (gmap string pyval)) :
  load_and_merge_config h environ config !! "container" =
  Some (if truthy (file_nocontainer config) then VBool false
        else getenv environ "RAMALAMA_IN_CONTAINER"
               (getenv environ "RAMALAMA_IN_CONTAINER"
                  (dict_get (default ∅ (config !! "ramalama")) "container"
                     (VBool (use_container h environ))))).
Proof.
  unfold load_and_merge_config, file_nocontainer.
  rewrite !lookup_insert_ne by done.
  rewrite lookup_total_insert_eq.
  rewrite !dict_get_insert_ne by done.
  destruct (truthy _).
  - apply lookup_insert_eq.
  - rewrite lookup_insert_eq, dict_get_insert_eq. reflexivity.
Qed.

(** C3: when the [nocontainer] flag that comes from the configuration file
    is true, the merged configuration has [container] set to [False],
    whatever the file and the environment hold otherwise. *)
Theorem nocontainer_forces_container_false (h : Host)
    (environ : gmap string string) (config : gmap string (gmap string pyval))
    (Hnc : truthy (file_nocontainer config) = true) :
  load_and_merge_config h environ config !! "container" = Some (VBool false).
Proof. rewrite merged_container, Hnc. reflexivity. Qed.

Lemma nocontainer_forces_container_false_witness :
  load_and_merge_config demo_host {[ "RAMALAMA_IN_CONTAINER" := "true" ]}
    {[ "ramalama" := {[ "nocontainer" := VBool true; "container" := VBool true ]} ]}
  !! "container" = Some (VBool false).
Proof.
  apply (nocontainer_forces_container_false demo_host
           {[ "RAMALAMA_IN_CONTAINER" := "true" ]}
           {[ "ramalama" := {[ "nocontainer" := VBool true; "container" := VBool true ]} ]}).
  vm_compute. reflexivity.
Defined.

(** C4: for each of the five fields, when its environment variable is set
    the merged configuration holds the value of the variable, whatever the
    file says; for [container] this is so unless [nocontainer] is set.  The
    code asks [os.getenv] with a default, so a variable set to the empty
    string overrides too. *)
Theorem env_override_wins (h : Host) (environ : gmap string string)
    (config : gmap string (gmap string pyval)) (field var v : string)
    (Hfield : In (field, var) override_vars)
    (Henv : environ !! var = Some v)
    (Hnc : field = "container" -> truthy (file_nocontainer config) = false) :
  load_and_merge_config h environ config !! field = Some (VStr v).
Proof.
  unfold override_vars in Hfield. simpl in Hfield.
  destruct Hfield as [[= <- <-] | [[= <- <-] | [[= <- <-] | [[= <- <-] | [[= <- <-] | []]]]]].
  2-5: clear Hnc.
  - rewrite merged_container, (Hnc eq_refl).
    rewrite (getenv_present _ _ _ _ Henv). reflexivity.
  - unfold load_and_merge_config.
    rewrite !lookup_insert_ne by done.
    destruct (truthy _); rewrite ?lookup_insert_ne by done;
      rewrite lookup_insert_eq, (getenv_present _ _ _ _ Henv); reflexivity.
  - unfold load_and_merge_config.
    rewrite !lookup_insert_ne by done.
    destruct (truthy _); rewrite ?lookup_insert_ne by done;
      rewrite lookup_insert_eq, (getenv_present _ _ _ _ Henv); reflexivity.
  - unfold load_and_merge_config.
    rewrite lookup_insert_ne by done.
    rewrite lookup_insert_eq, (getenv_present _ _ _ _ Henv). reflexivity.
  - unfold load_and_merge_config.
    rewrite lookup_insert_eq, (getenv_present _ _ _ _ Henv). reflexivity.
Qed.

Lemma env_override_wins_witness :
  load_and_merge_config demo_host {[ "RAMALAMA_TRANSPORT" := "oci" ]}
    {[ "ramalama" := {[ "transport" := VStr "huggingface" ]} ]}
  !! "transport" = Some (VStr "oci").
Proof.
  apply (env_override_wins demo_host {[ "RAMALAMA_TRANSPORT" := "oci" ]}
           {[ "ramalama" := {[ "transport" := VStr "huggingface" ]} ]}
           "transport" "RAMALAMA_TRANSPORT" "oci").
  - simpl. tauto.
  - vm_compute. reflexivity.
  - discriminate.
Defined.

(** ** Usage errors *)

(** C7: [stop] with both [--all] and a container name, and [rm] with both
    [--all] and model names or with neither, raise their usage error in the
    state they were called in: no subprocess was run, no removal attempted,
    nothing printed. *)
Theorem usage_errors_before_side_effects {World : Type} (sv : Services World)
    (config : gmap string pyval) (args : Args) (st : St World) :
  (all args = true -> opt_truthy (NAME args) = true ->
   stop_container sv args st =
   (Raise (ValueError ("specifying --all and container name, "
                       +:+ default EmptyString (NAME args) +:+ ", not allowed")), st))
  /\ (all args = true -> MODEL args <> [] ->
      rm_cli sv config args st =
      (Raise (IndexError "can not specify --all as well MODEL"), st))
  /\ (all args = false -> MODEL args = [] ->
      rm_cli sv config args st =
      (Raise (IndexError "one MODEL or --all must be specified"), st)).
Proof.
  split; [|split].
  - intros Hall Hname. unfold stop_container. rewrite Hall, Hname. reflexivity.
  - intros Hall Hmodel. unfold rm_cli. rewrite Hall.
    destruct (MODEL args); [congruence | reflexivity].
  - intros Hall Hmodel. unfold rm_cli. rewrite Hall, Hmodel. reflexivity.
Qed.

Lemma usage_errors_before_side_effects_witness :
  stop_container demo_services demo_stop_all_named demo_st
  = (Raise (ValueError "specifying --all and container name, c1, not allowed"), demo_st)
  /\ rm_cli demo_services demo_config demo_rm_all_named demo_st
     = (Raise (IndexError "can not specify --all as well MODEL"), demo_st)
  /\ rm_cli demo_services demo_config demo_args demo_st
     = (Raise (IndexError "one MODEL or --all must be specified"), demo_st).
Proof.
  split; [|split].
  - exact (proj1 (usage_errors_before_side_effects demo_services demo_config
                    demo_stop_all_named demo_st) eq_refl eq_refl).
  - refine (proj1 (proj2 (usage_errors_before_side_effects demo_services demo_config
                            demo_rm_all_named demo_st)) eq_refl _).
    discriminate.
  - exact (proj2 (proj2 (usage_errors_before_side_effects demo_services demo_config
                           demo_args demo_st)) eq_refl eq_refl).
Defined.

(** Without the conflict, [stop --all] does reach the engine. *)
Lemma stop_all_reaches_engine :
  (stop_container demo_services demo_stop_all demo_st).2.2
  = [EvRunCmd [Some "docker"; Some "ps"; Some "-a"; Some "--filter";
               Some "label=ai.ramalama"; Some "--format={{ .Names }}"] false false;
     EvPerror "ramalama list command requires a running container engine"].
Proof. vm_compute. reflexivity. Qed.

(** ** [_stop_container] *)

(** One run of [_stop_container] with a name and an engine: a single
    subprocess call, whose failure is swallowed only for docker with the
    ignore flag. *)
Lemma _stop_container_run {World : Type} (sv : Services World) (args : Args)
    (name : option string) (st : St World) :
  opt_truthy name = true -> engine args <> Some EmptyString ->
  _stop_container sv args name st =
  match run_cmd sv (stop_argv args name) (stop_ignore_stderr args) (debug args) st.1 with
  | (Ok _, w') =>
      (Ok tt, (w', st.2 ++ [EvRunCmd (stop_argv args name) (stop_ignore_stderr args)
                              (debug args)]))
  | (Raise e, w') =>
      (if is_CalledProcessError e && ignore args
          && bool_decide (engine args = Some "docker")
       then Ok tt else Raise e,
       (w', st.2 ++ [EvRunCmd (stop_argv args name) (stop_ignore_stderr args)
                       (debug args)]))
  end.
Proof.
  intros Hname Heng. unfold _stop_container, stop_argv, stop_ignore_stderr.
  rewrite Hname. simpl negb. cbv iota.
  rewrite (bool_decide_eq_false_2 _ Heng).
  destruct (ignore args) eqn:Hig; simpl andb.
  - destruct (bool_decide (engine args = Some "podman")) eqn:Hp; simpl;
      unfold try_except, bind, call_run_cmd, call, ret, raise; simpl;
      destruct (run_cmd sv _ _ _ st.1) as [[out | e] w']; simpl; try reflexivity;
      destruct (is_CalledProcessError e); simpl; try reflexivity;
      destruct (bool_decide (engine args = Some "docker")); reflexivity.
  - unfold try_except, bind, call_run_cmd, call, ret, raise; simpl.
    destruct (run_cmd sv _ _ _ st.1) as [[out | e] w']; simpl; try reflexivity.
    destruct (is_CalledProcessError e); reflexivity.
Qed.

(** C8: with the ignore flag, [_stop_container] passes [--ignore True] on the
    command line of podman, and for every other engine suppresses the
    diagnostic stream instead; a failure of the subprocess is swallowed only
    when the ignore flag was given (and then only a non-zero exit of docker),
    and without the flag every failure reaches the caller. *)
Theorem stop_container_ignore {World : Type} (sv : Services World) (args : Args)
    (name : option string) (st : St World)
    (Hname : opt_truthy name = true)
    (Hengine : engine args <> Some EmptyString) :
  (ignore args = true -> engine args = Some "podman" ->
   exists r w',
     _stop_container sv args name st =
     (r, (w', st.2 ++ [EvRunCmd [Some "podman"; Some "stop"; Some "-t=0";
                                 Some "--ignore"; Some "True"; name]
                         false (debug args)])))
  /\ (ignore args = true -> engine args <> Some "podman" ->
      exists r w',
        _stop_container sv args name st =
        (r, (w', st.2 ++ [EvRunCmd [engine args; Some "stop"; Some "-t=0"; name]
                            true (debug args)])))
  /\ (forall e w',
        run_cmd sv (stop_argv args name) (stop_ignore_stderr args) (debug args) st.1
        = (Raise e, w') ->
        ((_stop_container sv args name st).1 = Ok tt ->
         ignore args = true /\ engine args = Some "docker"
         /\ is_CalledProcessError e = true)
        /\ (ignore args = true -> engine args = Some "docker" ->
            is_CalledProcessError e = true ->
            (_stop_container sv args name st).1 = Ok tt)
        /\ (ignore args = false -> (_stop_container sv args name st).1 = Raise e)).
Proof.
  pose proof (_stop_container_run sv args name st Hname Hengine) as Hrun.
  split; [|split].
  - intros Hig Hp. rewrite Hrun. clear Hrun. unfold stop_argv, stop_ignore_stderr.
    rewrite Hig, Hp. simpl.
    destruct (run_cmd sv _ _ _ st.1) as [[out | e] w']; eexists _, _; reflexivity.
  - intros Hig Hp. rewrite Hrun. clear Hrun. unfold stop_argv, stop_ignore_stderr.
    rewrite Hig, (bool_decide_eq_false_2 _ Hp). simpl.
    destruct (run_cmd sv _ _ _ st.1) as [[out | e] w']; eexists _, _; reflexivity.
  - intros e w' He. rewrite Hrun, He. clear Hrun. simpl.
    split; [|split].
    + destruct (is_CalledProcessError e), (ignore args);
        try discriminate; simpl.
      case_bool_decide; [auto | discriminate].
    + intros -> Hd ->. simpl. rewrite bool_decide_eq_true_2 by exact Hd. reflexivity.
    + intros ->. rewrite andb_false_r. reflexivity.
Qed.

Lemma stop_container_ignore_witness :
  (_stop_container demo_services (set_ignore demo_args true) (Some "c1") demo_st).1 = Ok tt
  /\ (_stop_container demo_services demo_args (Some "c1") demo_st).1
     = Raise (CalledProcessError 125).
Proof.
  split.
  - refine (proj1 (proj2 (proj2 (proj2 (stop_container_ignore demo_services
                                        (set_ignore demo_args true) (Some "c1") demo_st
                                        eq_refl _))
                            (CalledProcessError 125) "/home/user" eq_refl))
              eq_refl eq_refl eq_refl).
    discriminate.
  - refine (proj2 (proj2 (proj2 (proj2 (stop_container_ignore demo_services
                                        demo_args (Some "c1") demo_st eq_refl _))
                            (CalledProcessError 125) "/home/user" eq_refl))
              eq_refl).
    discriminate.
Defined.

(** An engine that is neither podman nor docker gets its diagnostic stream
    suppressed, but its failure still reaches the caller. *)
Lemma stop_container_other_engine :
  _stop_container demo_services
    {| engine := Some "nerdctl"; store := "/var/lib/ramalama"; debug := false;
       ignore := true; all := false; NAME := None; MODEL := [];
       format := None; noheading := None; notrunc := None;
       json := false; quiet := false |} (Some "c1") demo_st
  = (Raise (CalledProcessError 125),
     ("/home/user",
      [EvRunCmd [Some "nerdctl"; Some "stop"; Some "-t=0"; Some "c1"] true false])).
Proof. vm_compute. reflexivity. Qed.

(** ** [_rm_model] *)

Lemma startswith_inv (p s : string) :
  startswith s p = true -> exists r, s = p +:+ r.
Proof.
  revert s. induction p as [|c p IH]; intros s H.
  - exists s. reflexivity.
  - destruct s as [|d s]; [discriminate|]. simpl in H.
    apply andb_true_iff in H as [Hc Hp]. apply Ascii.eqb_eq in Hc as ->.
    destruct (IH s Hp) as [r ->]. exists r. reflexivity.
Qed.

(** A name with the [oci://] prefix that the Ollama family does not claim
    resolves to the OCI backend. *)
Lemma New_oci (config : gmap string pyval) (model : string) (args : Args) :
  startswith model "oci://" = true ->
  contains "ollama.com/library/" model = false ->
  New config model args = Ok (OCI model (engine args)).
Proof.
  intros Hp Hc. destruct (startswith_inv _ _ Hp) as [r ->].
  unfold New. rewrite Hc. reflexivity.
Qed.

(** One step of [_rm_model] on a name that resolves to the OCI backend,
    whose removal fails with [e] at the first attempt and with [e2] when it
    is tried again as a container image. *)
Lemma _rm_model_step_oci {World : Type} (sv : Services World)
    (config : gmap string pyval) (model : string) (args : Args) (st : St World)
    (e e2 : exn) (w1 w2 : World) :
  New config (resolve_shortname sv model) args
  = Ok (OCI (resolve_shortname sv model) (engine args)) ->
  model_remove sv (OCI (resolve_shortname sv model) (engine args)) args false st.1
  = (Raise e, w1) ->
  model_remove sv (OCI (resolve_shortname sv model) (engine args)) args true w1
  = (Raise e2, w2) ->
  _rm_model_step sv config model args st
  = (if is_KeyError e
     then if has_model_type_prefix sv (resolve_shortname sv model) && negb (ignore args)
          then (Raise e,
                (w1, st.2 ++ [EvRemove (OCI (resolve_shortname sv model) (engine args))
                                args false]))
          else (if ignore args then Ok Continue else Raise e,
                (w2, (st.2 ++ [EvRemove (OCI (resolve_shortname sv model) (engine args))
                                 args false])
                     ++ [EvRemove (OCI (resolve_shortname sv model) (engine args))
                           args true]))
     else (Raise e,
           (w1, st.2 ++ [EvRemove (OCI (resolve_shortname sv model) (engine args))
                           args false]))).
Proof.
  intros HN Hr Hf. unfold _rm_model_step, has_model_type_prefix.
  unfold try_except at 1. unfold bind at 1. rewrite HN. simpl lift_result.
  unfold bind at 1. unfold ret at 1. unfold call_remove at 1. unfold call.
  rewrite Hr. cbn [fst snd].
  destruct (is_KeyError e); [|reflexivity].
  destruct (existsb _ (MODEL_TYPES sv) && negb (ignore args)); [reflexivity|].
  unfold bind, try_except, call_remove, call, ret, raise. cbn [fst snd].
  rewrite Hf. destruct (ignore args); reflexivity.
Qed.

(** C6, as the code has it: a model name with the [oci://] prefix resolves
    to the OCI backend, whose removal fails with [e], and with [e2] when it
    is tried again as a container image.  With the ignore flag off,
    [_rm_model] asks the backend and raises the backend's error [e] itself,
    whatever follows in the list.  With the ignore flag on, it goes on to
    the rest of the list (and returns normally at its end) only when [e] is
    a [KeyError], after the second attempt; an error of any other type is
    raised to the caller, ignore flag or not. *)
Theorem rm_model_oci_failure {World : Type} (sv : Services World)
    (config : gmap string pyval) (model : string) (rest : list string) (args : Args)
    (st : St World) (e e2 : exn) (w1 w2 : World)
    (Hprefix : startswith (resolve_shortname sv model) "oci://" = true)
    (Hfirst : contains "ollama.com/library/" (resolve_shortname sv model) = false)
    (Hremove : model_remove sv (OCI (resolve_shortname sv model) (engine args))
                 args false st.1 = (Raise e, w1))
    (Hfallback : model_remove sv (OCI (resolve_shortname sv model) (engine args))
                   args true w1 = (Raise e2, w2)) :
  (ignore args = false ->
   _rm_model sv config (model :: rest) args st
   = (Raise e,
      if is_KeyError e && negb (has_model_type_prefix sv (resolve_shortname sv model))
      then (w2, (st.2 ++ [EvRemove (OCI (resolve_shortname sv model) (engine args))
                            args false])
                ++ [EvRemove (OCI (resolve_shortname sv model) (engine args)) args true])
      else (w1, st.2 ++ [EvRemove (OCI (resolve_shortname sv model) (engine args))
                           args false])))
  /\ (ignore args = true ->
      (is_KeyError e = true ->
       _rm_model sv config (model :: rest) args st
       = _rm_model sv config rest args
           (w2, (st.2 ++ [EvRemove (OCI (resolve_shortname sv model) (engine args))
                            args false])
                ++ [EvRemove (OCI (resolve_shortname sv model) (engine args)) args true]))
      /\ (is_KeyError e = true ->
          _rm_model sv config [model] args st
          = (Ok tt,
             (w2, (st.2 ++ [EvRemove (OCI (resolve_shortname sv model) (engine args))
                              args false])
                  ++ [EvRemove (OCI (resolve_shortname sv model) (engine args))
                        args true])))
      /\ (is_KeyError e = false ->
          _rm_model sv config (model :: rest) args st
          = (Raise e,
             (w1, st.2 ++ [EvRemove (OCI (resolve_shortname sv model) (engine args))
                             args false])))).
Proof.
  pose proof (_rm_model_step_oci sv config model args st e e2 w1 w2
                (New_oci config _ args Hprefix Hfirst) Hremove Hfallback) as Hstep.
  split.
  - intros Hig. cbn [_rm_model]. unfold bind. rewrite Hstep, Hig.
    rewrite andb_true_r. cbn [negb].
    destruct (is_KeyError e); [|reflexivity].
    destruct (has_model_type_prefix sv (resolve_shortname sv model)); reflexivity.
  - intros Hig. rewrite Hig, andb_false_r in Hstep. split; [|split].
    + intros He. rewrite He in Hstep.
      cbn [_rm_model]. unfold bind. rewrite Hstep. reflexivity.
    + intros He. rewrite He in Hstep.
      cbn [_rm_model]. unfold bind. rewrite Hstep. reflexivity.
    + intros He. rewrite He in Hstep.
      cbn [_rm_model]. unfold bind. rewrite Hstep. reflexivity.
Qed.

(** On the small host, whose backends answer a removal with [KeyError]:
    [rm oci://quay.io/m tiny] raises that error without touching [tiny],
    and [rm --ignore oci://quay.io/m] returns after two attempts. *)
Lemma rm_model_oci_failure_witness :
  _rm_model demo_services demo_config ["oci://quay.io/m"; "tiny"] demo_args demo_st
  = (Raise (KeyError "model not found"),
     ("/home/user",
      [EvRemove (OCI "oci://quay.io/m" (Some "docker")) demo_args false]))
  /\ _rm_model demo_services demo_config ["oci://quay.io/m"]
       (set_ignore demo_args true) demo_st
     = (Ok tt,
        ("/home/user",
         [EvRemove (OCI "oci://quay.io/m" (Some "docker")) (set_ignore demo_args true)
            false;
          EvRemove (OCI "oci://quay.io/m" (Some "docker")) (set_ignore demo_args true)
            true])).
Proof.
  split.
  - exact (proj1 (rm_model_oci_failure demo_services demo_config "oci://quay.io/m"
                    ["tiny"] demo_args demo_st
                    (KeyError "model not found") (KeyError "model not found")
                    "/home/user" "/home/user" eq_refl eq_refl eq_refl eq_refl)
             eq_refl).
  - exact (proj1 (proj2 (proj2 (rm_model_oci_failure demo_services demo_config
                                  "oci://quay.io/m" [] (set_ignore demo_args true)
                                  demo_st
                                  (KeyError "model not found")
                                  (KeyError "model not found")
                                  "/home/user" "/home/user"
                                  eq_refl eq_refl eq_refl eq_refl)
                           eq_refl))
             eq_refl).
Defined.

(** On a host whose engine fails the removal with [CalledProcessError],
    [rm --ignore oci://quay.io/m] does not return normally: the engine's
    error reaches the caller after the first attempt. *)
Lemma rm_model_ignore_engine_failure :
  _rm_model engine_rm_services demo_config ["oci://quay.io/m"]
    (set_ignore demo_args true) demo_st
  = (Raise (CalledProcessError 1),
     ("/home/user",
      [EvRemove (OCI "oci://quay.io/m" (Some "docker")) (set_ignore demo_args true)
         false])).
Proof. vm_compute. reflexivity. Qed.

(** A failure that is not a [KeyError] is not caught: it reaches the caller
    whatever the ignore flag says. *)
Lemma _rm_model_other_failure {World : Type} (sv : Services World)
    (config : gmap string pyval) (model : string) (rest : list string) (args : Args)
    (b : Backend) (e : exn) (st : St World) (w' : World) :
  New config (resolve_shortname sv model) args = Ok b ->
  model_remove sv b args false st.1 = (Raise e, w') ->
  is_KeyError e = false ->
  _rm_model sv config (model :: rest) args st
  = (Raise e, (w', st.2 ++ [EvRemove b args false])).
Proof.
  intros HN Hr He. simpl _rm_model. unfold bind at 1. unfold _rm_model_step.
  unfold try_except at 1. unfold bind at 1. rewrite HN. simpl lift_result.
  unfold bind at 1. unfold ret at 1. unfold call_remove at 1. unfold call.
  rewrite Hr. simpl. rewrite He. reflexivity.
Qed.

(** ** [list_cli] *)

(** [sort_by] is a sort: a permutation of its input, ordered by [le]
    whenever [le] is total. *)
Lemma insert_by_perm {A : Type} (le : A -> A -> bool) (x : A) (l : list A) :
  Permutation (x :: l) (insert_by le x l).
Proof.
  induction l as [|y l IH]; simpl; [reflexivity|].
  destruct (le x y); [reflexivity|].
  rewrite perm_swap. constructor. exact IH.
Qed.

Lemma sort_by_perm {A : Type} (le : A -> A -> bool) (l : list A) :
  Permutation l (sort_by le l).
Proof.
  induction l as [|x l IH]; simpl; [reflexivity|].
  rewrite <- insert_by_perm. constructor. exact IH.
Qed.

Lemma insert_by_sorted {A : Type} (le : A -> A -> bool)
    (Htotal : forall x y, le x y = false -> le y x = true) (x : A) (l : list A) :
  Sorted (fun a b => le a b = true) l ->
  Sorted (fun a b => le a b = true) (insert_by le x l).
Proof.
  induction l as [|y l IH]; intros Hs; simpl.
  - repeat constructor.
  - destruct (le x y) eqn:Hxy.
    + constructor; [exact Hs | constructor; exact Hxy].
    + apply Sorted_inv in Hs as [Hs Hhd]. constructor; [apply IH; exact Hs|].
      destruct l as [|z l]; simpl.
      * constructor. apply Htotal. exact Hxy.
      * destruct (le x z); constructor.
        -- apply Htotal. exact Hxy.
        -- apply HdRel_inv in Hhd. exact Hhd.
Qed.

Lemma sort_by_sorted {A : Type} (le : A -> A -> bool)
    (Htotal : forall x y, le x y = false -> le y x = true) (l : list A) :
  Sorted (fun a b => le a b = true) (sort_by le l).
Proof.
  induction l as [|x l IH]; simpl; [constructor|].
  apply insert_by_sorted; assumption.
Qed.

Lemma str_leb_total (s t : string) : String.leb s t = false -> String.leb t s = true.
Proof.
  destruct (String.leb_total s t) as [H | H]; congruence.
Qed.

Lemma sorted_by_str_sorted {A : Type} (key : A -> string) (l : list A) :
  Sorted (fun a b => String.leb (key a) (key b) = true) (sorted_by_str key l).
Proof.
  apply (sort_by_sorted (fun x y => String.leb (key x) (key y))).
  intros x y. apply str_leb_total.
Qed.

(** A loop that only prints appends one line per element, in order. *)
Lemma for_each_print {World A : Type} (f : A -> string) (l : list A) (st : St World) :
  for_each l (fun x => print (f x)) st
  = (Ok tt, (st.1, st.2 ++ map (fun x => EvPrint (f x)) l)).
Proof.
  revert st. induction l as [|x l IH]; intros [w tr]; simpl.
  - unfold ret. rewrite app_nil_r. reflexivity.
  - unfold bind, print, emit. simpl. rewrite IH. simpl.
    rewrite <- app_assoc. reflexivity.
Qed.

(** Outside JSON mode, [list_cli] prints, after the optional heading, one
    row per model in the order [_list_models] returned them: the sorted copy
    only serves the column widths. *)
Lemma list_cli_rows_in_listing_order {World : Type} (sv : Services World)
    (config : gmap string pyval) (args : Args) (st st' : St World)
    (models : list ModelEntry) (nh : bool) :
  json args = false -> noheading args = Some nh ->
  _list_models sv config args st = (Ok models, st') ->
  exists heading,
    list_cli sv config args st
    = (Ok tt, (st'.1,
               (st'.2 ++ heading)
               ++ map (fun m => EvPrint (list_row args (column_widths models) m)) models))
    /\ length heading = (if negb (quiet args) && negb nh then 1 else 0)%nat.
Proof.
  intros Hj Hnh Hl. unfold list_cli. unfold bind at 1. rewrite Hl, Hj, Hnh.
  destruct (column_widths models) as [[nw mw] sw] eqn:Hw.
  destruct (quiet args) eqn:Hq; [|destruct nh]; simpl.
  - exists []. split; [|reflexivity].
    unfold bind at 1. unfold ret at 1. unfold bind at 1. unfold ret at 1.
    rewrite for_each_print. simpl. rewrite app_nil_r. reflexivity.
  - exists []. split; [|reflexivity].
    unfold bind at 1. unfold ret at 1. unfold bind at 1. unfold ret at 1.
    rewrite for_each_print. simpl. rewrite app_nil_r. reflexivity.
  - eexists [_]. split; [|reflexivity].
    unfold bind at 1. unfold ret at 1. unfold bind at 1. unfold print at 1.
    unfold emit at 1. rewrite for_each_print. reflexivity.
Qed.

(** C5, on the code: with the local model [ollama://foo] and the OCI image
    [oci://bar], the listing prints the row of [ollama://foo] first, although
    [oci://bar] sorts before it. *)
Theorem list_cli_prints_unsorted :
  printed (list_cli demo_services demo_config demo_args demo_st).2.2
  = ["NAME         MODIFIED      SIZE";
     "ollama://foo 5 seconds ago 10 B";
     "oci://bar    3 weeks ago   20 B"]
  /\ (_list_models demo_services demo_config demo_args demo_st).1
     = Ok [mkEntry "ollama://foo" (MSeconds 5) "10 B";
           mkEntry "oci://bar" (MText "3 weeks ago") "20 B"]
  /\ map name (sorted_by_str name
                 [mkEntry "ollama://foo" (MSeconds 5) "10 B";
                  mkEntry "oci://bar" (MText "3 weeks ago") "20 B"])
     = ["oci://bar"; "ollama://foo"].
Proof. repeat split; vm_compute; reflexivity. Qed.

(** * Further properties *)

(** ** The merged configuration *)

(** Every key but [container]: the environment variable of the key if it has
    one and it is set, else the value of the file, else the default. *)
Lemma merged_field (h : Host) (environ : gmap string string)
    (config : gmap string (gmap string pyval)) (field : string) :
  In field ["engine"; "image"; "nocontainer"; "carimage"; "runtime"; "store"; "transport"] ->
  load_and_merge_config h environ config !! field =
  Some (match override_var field with
        | Some var =>
            getenv environ var
              (dict_get (default ∅ (config !! "ramalama")) field (config_default h field))
        | None =>
            dict_get (default ∅ (config !! "ramalama")) field (config_default h field)
        end).
Proof.
  intros Hin. simpl in Hin.
  repeat (destruct Hin as [<- | Hin]); try contradiction;
    unfold load_and_merge_config;
    rewrite ?lookup_insert_ne by done;
    destruct (truthy _);
    rewrite ?lookup_insert_ne by done;
    rewrite lookup_insert_eq;
    rewrite ?dict_get_insert_ne by done;
    reflexivity.
Qed.

(** X1: whatever the files and the environment hold, the merged
    configuration defines all eight keys the rest of the program reads. *)
Theorem merged_config_defines_keys (h : Host) (environ : gmap string string)
    (config : gmap string (gmap string pyval)) (k : string)
    (Hk : In k managed_keys) :
  is_Some (load_and_merge_config h environ config !! k).
Proof.
  destruct Hk as [<- | Hk].
  - rewrite merged_container. eauto.
  - rewrite merged_field by exact Hk. eauto.
Qed.

Lemma merged_config_defines_keys_witness :
  is_Some (load_and_merge_config demo_host ∅ ∅ !! "carimage").
Proof.
  apply (merged_config_defines_keys demo_host ∅ ∅ "carimage").
  simpl. tauto.
Defined.

Lemma not_in_managed (k : string) :
  ~ In k managed_keys ->
  k <> "container" /\ k <> "engine" /\ k <> "image" /\ k <> "nocontainer"
  /\ k <> "carimage" /\ k <> "runtime" /\ k <> "store" /\ k <> "transport".
Proof. unfold managed_keys. simpl. intuition. Qed.

(** X2: a key of the [ramalama] table that is none of the eight managed ones
    (port, host, ctx_size, ...) reaches the merged configuration unchanged,
    and a key the table lacks stays absent. *)
Theorem merged_config_passthrough (h : Host) (environ : gmap string string)
    (config : gmap string (gmap string pyval)) (k : string)
    (Hk : ~ In k managed_keys) :
  load_and_merge_config h environ config !! k
  = default ∅ (config !! "ramalama") !! k.
Proof.
  apply not_in_managed in Hk as (H1 & H2 & H3 & H4 & H5 & H6 & H7 & H8).
  unfold load_and_merge_config.
  rewrite ?lookup_insert_ne by done.
  destruct (truthy _); rewrite ?lookup_insert_ne by done; reflexivity.
Qed.

Lemma merged_config_passthrough_witness :
  load_and_merge_config demo_host {[ "RAMALAMA_IMAGE" := "img" ]}
    {[ "ramalama" := {[ "port" := VStr "8081" ]} ]} !! "port"
  = Some (VStr "8081").
Proof.
  refine (eq_trans
            (merged_config_passthrough demo_host {[ "RAMALAMA_IMAGE" := "img" ]}
               {[ "ramalama" := {[ "port" := VStr "8081" ]} ]} "port" _) _).
  - unfold managed_keys. simpl. intros H.
    repeat (destruct H as [H | H]; [discriminate H|]). exact H.
  - vm_compute. reflexivity.
Defined.

(** X3: for engine, image, store, transport, runtime and carimage, when the
    environment variable of the key is not set (runtime and carimage have
    none), the merged value is the one of the file, and the hard-coded
    default only when the file does not define the key. *)
Theorem merged_config_file_then_default (h : Host) (environ : gmap string string)
    (config : gmap string (gmap string pyval)) (field : string)
    (Hfield : In field ["engine"; "image"; "store"; "transport"; "runtime"; "carimage"])
    (Hunset : forall var, override_var field = Some var -> environ !! var = None) :
  load_and_merge_config h environ config !! field
  = Some (match default ∅ (config !! "ramalama") !! field with
          | Some v => v
          | None => config_default h field
          end).
Proof.
  rewrite merged_field by (simpl in *; tauto).
  destruct (override_var field) as [var|] eqn:Hv.
  - unfold getenv. rewrite (Hunset var eq_refl). reflexivity.
  - reflexivity.
Qed.

Lemma merged_config_file_then_default_witness :
  load_and_merge_config demo_host {[ "RAMALAMA_IMAGE" := "img" ]}
    {[ "ramalama" := {[ "store" := VStr "/srv/models" ]} ]} !! "store"
  = Some (VStr "/srv/models")
  /\ load_and_merge_config demo_host {[ "RAMALAMA_IMAGE" := "img" ]} ∅ !! "store"
     = Some (VStr "/home/user/.local/share/ramalama").
Proof.
  split.
  - refine (eq_trans
              (merged_config_file_then_default demo_host {[ "RAMALAMA_IMAGE" := "img" ]}
                 {[ "ramalama" := {[ "store" := VStr "/srv/models" ]} ]} "store" _ _) _).
    + simpl. tauto.
    + intros var [= <-]. reflexivity.
    + vm_compute. reflexivity.
  - refine (eq_trans
              (merged_config_file_then_default demo_host {[ "RAMALAMA_IMAGE" := "img" ]}
                 ∅ "store" _ _) _).
    + simpl. tauto.
    + intros var [= <-]. reflexivity.
    + vm_compute. reflexivity.
Defined.

(** X4: the [container] entry of the merged configuration is [False] under
    [nocontainer]; else the text of RAMALAMA_IN_CONTAINER when it is set; else
    the value of the file; else whether a container manager was found.  The
    way [use_container] reads the variable never shows in it. *)
Theorem merged_container_value (h : Host) (environ : gmap string string)
    (config : gmap string (gmap string pyval)) :
  load_and_merge_config h environ config !! "container"
  = Some (if truthy (file_nocontainer config) then VBool false
          else match environ !! "RAMALAMA_IN_CONTAINER" with
               | Some v => VStr v
               | None =>
                   dict_get (default ∅ (config !! "ramalama")) "container"
                     (VBool (bool_decide (container_manager h <> None)))
               end).
Proof.
  rewrite merged_container. unfold getenv, use_container.
  destruct (environ !! "RAMALAMA_IN_CONTAINER"); reflexivity.
Qed.

(** X5: when RAMALAMA_IN_CONTAINER is set to a non-empty text and
    [nocontainer] is off, the [container] entry is that text, which Python
    takes for true whatever it says, [false] included. *)
Theorem container_env_text_is_truthy (h : Host) (environ : gmap string string)
    (config : gmap string (gmap string pyval)) (v : string)
    (Henv : environ !! "RAMALAMA_IN_CONTAINER" = Some v)
    (Hv : v <> EmptyString)
    (Hnc : truthy (file_nocontainer config) = false) :
  exists x, load_and_merge_config h environ config !! "container" = Some x
            /\ x = VStr v /\ truthy x = true.
Proof.
  exists (VStr v). rewrite merged_container, Hnc.
  rewrite !(getenv_present _ _ _ _ Henv).
  repeat split. simpl. rewrite (str_eqb_false _ _ Hv). reflexivity.
Qed.

Lemma container_env_text_is_truthy_witness :
  exists x, load_and_merge_config demo_host {[ "RAMALAMA_IN_CONTAINER" := "false" ]} ∅
            !! "container" = Some x
            /\ x = VStr "false" /\ truthy x = true.
Proof.
  apply (container_env_text_is_truthy demo_host
           {[ "RAMALAMA_IN_CONTAINER" := "false" ]} ∅ "false").
  - vm_compute. reflexivity.
  - discriminate.
  - reflexivity.
Defined.

(** ** [New], [login] and [human_duration] *)

(** X6: [New] either builds a backend that carries the reference exactly as
    given (an OCI backend also the engine of the arguments), or raises
    [KeyError], and that only for a reference without prefix under an
    unsupported default transport: no other exception leaves it. *)
Theorem New_result_shape (config : gmap string pyval) (model : string) (args : Args) :
  (exists b, New config model args = Ok b
             /\ backend_reference b = model
             /\ (forall m c, b = OCI m c -> c = engine args))
  \/ (exists msg, New config model args = Raise (KeyError msg)
                  /\ spec_owner model = None
                  /\ spec_default_transport
                       (dict_get config "transport" (VStr "ollama")) = None).
Proof.
  destruct (spec_owner model) as [t|] eqn:Ho.
  - left. exists (backend_of t model args).
    split; [apply New_first_match; exact Ho|].
    destruct t; simpl; split; try reflexivity; intros m c [=]; congruence.
  - rewrite (New_no_match config model args Ho).
    destruct (spec_default_transport _) as [t|] eqn:Ht.
    + left. exists (backend_of t model args). split; [reflexivity|].
      destruct t; simpl; split; try reflexivity; intros m c [=]; congruence.
    + right. eexists. repeat split; reflexivity.
Qed.

(** X7: [login] and [logout] reach the OCI backend, with a reference that
    begins with [oci://], for every registry except the two names passed
    through and texts that mention [ollama.com/library/]; the default
    transport plays no part and the resolution cannot fail. *)
Theorem login_backend_is_oci (config : gmap string pyval) (args : Args)
    (registry : option string)
    (Hollama : registry <> Some "ollama")
    (Hhf : registry <> Some "hfhuggingface")
    (Hlib : forall r, registry = Some r -> contains "ollama.com/library/" r = false) :
  exists m, login_backend config args registry = Ok (OCI m (engine args))
            /\ startswith m "oci://" = true.
Proof.
  unfold login_backend.
  assert (Hbase : New config "oci://" args = Ok (OCI "oci://" (engine args)))
    by reflexivity.
  destruct registry as [r|]; [|exists "oci://"; split; [exact Hbase | reflexivity]].
  destruct (String.eqb_spec r EmptyString) as [-> | Hne];
    [exists "oci://"; split; [exact Hbase | reflexivity]|].
  destruct (startswith r "oci://") eqn:Hp.
  - rewrite (normalize_registry_oci_prefix r Hp).
    exists "oci://". split; [exact Hbase | reflexivity].
  - rewrite (normalize_registry_other r Hne Hp) by congruence.
    exists ("oci://" +:+ r). split; [|apply startswith_app].
    apply (New_first_match config ("oci://" +:+ r) args TOCI).
    apply (spec_owner_of_prefix TOCI "oci://" r); [simpl; tauto|].
    apply Hlib. reflexivity.
Qed.

Lemma login_backend_is_oci_witness :
  exists m, login_backend {[ "transport" := VStr "huggingface" ]} demo_args
              (Some "quay.io") = Ok (OCI m (Some "docker"))
            /\ startswith m "oci://" = true.
Proof.
  apply (login_backend_is_oci {[ "transport" := VStr "huggingface" ]} demo_args
           (Some "quay.io")).
  - discriminate.
  - discriminate.
  - intros r [= <-]. reflexivity.
Defined.

(** The registry [ollama] is handed to [New] as a reference without prefix:
    the default transport decides, and it need not be Ollama. *)
Lemma login_ollama_follows_default_transport :
  login_backend {[ "transport" := VStr "huggingface" ]} demo_args (Some "ollama")
  = Ok (Huggingface "ollama").
Proof. reflexivity. Qed.

(** One bracket of [human_duration]: the count, the unit and its length. *)
Ltac div_lia := first [ lia | Z.div_mod_to_equations; lia ].

Ltac duration_case n unit len :=
  exists n, unit, len;
  split; [simpl; tauto|];
  split; [div_lia|];
  split;
  [ intros u l Hin Hl; unfold duration_table in Hin; simpl in Hin;
    repeat (destruct Hin as [[= _ <-] | Hin]; [lia|]); contradiction
  | first [ left; split; [lia | reflexivity]
          | right; split; [div_lia | reflexivity] ] ].

(** X8: for every duration of at least one second, [human_duration] names the
    largest unit that fits (a month being 28 days and a year 365) and the
    number of whole units, which it writes as [1 unit] or, from two on, as
    [n units]. *)
Theorem human_duration_whole_units (d : Z) (Hd : 1 <= d) :
  exists n unit len,
    In (unit, len) duration_table
    /\ n * len <= d < (n + 1) * len
    /\ (forall u l, In (u, l) duration_table -> l <= d -> l <= len)
    /\ ((n = 1 /\ human_duration d = "1 " +:+ unit)
        \/ (2 <= n /\ human_duration d = str_of_Z n +:+ " " +:+ unit +:+ "s")).
Proof.
  unfold human_duration.
  destruct (Z.ltb_spec d 1); [lia|].
  destruct (Z.eqb_spec d 1); [duration_case 1 "second" 1|].
  destruct (Z.ltb_spec d 60); [duration_case d "second" 1|].
  destruct (Z.ltb_spec d 120); [duration_case 1 "minute" 60|].
  destruct (Z.ltb_spec d 3600); [duration_case (d / 60) "minute" 60|].
  destruct (Z.ltb_spec d 7200); [duration_case 1 "hour" 3600|].
  destruct (Z.ltb_spec d 86400); [duration_case (d / 3600) "hour" 3600|].
  destruct (Z.ltb_spec d 172800); [duration_case 1 "day" 86400|].
  destruct (Z.ltb_spec d 604800); [duration_case (d / 86400) "day" 86400|].
  destruct (Z.ltb_spec d 1209600); [duration_case 1 "week" 604800|].
  destruct (Z.ltb_spec d 2419200); [duration_case (d / 604800) "week" 604800|].
  destruct (Z.ltb_spec d 4838400); [duration_case 1 "month" 2419200|].
  destruct (Z.ltb_spec d 31536000); [duration_case (d / 2419200) "month" 2419200|].
  destruct (Z.ltb_spec d 63072000); [duration_case 1 "year" 31536000|].
  duration_case (d / 31536000) "year" 31536000.
Qed.

Lemma human_duration_whole_units_witness :
  exists n unit len,
    In (unit, len) duration_table
    /\ n * len <= 200000 < (n + 1) * len
    /\ (forall u l, In (u, l) duration_table -> l <= 200000 -> l <= len)
    /\ ((n = 1 /\ human_duration 200000 = "1 " +:+ unit)
        \/ (2 <= n /\ human_duration 200000 = str_of_Z n +:+ " " +:+ unit +:+ "s")).
Proof. apply (human_duration_whole_units 200000). lia. Defined.

(** ** The engine adapter *)

(** X9: the checks of the engine adapter answer before any subprocess runs:
    [_list_containers] refuses an engine that is [None] or empty,
    [_stop_container] an empty name and an empty engine, [engine_info] an
    empty engine; each raises [ValueError] in the state it was called in. *)
Theorem engine_adapter_preconditions {World J : Type} (sv : Services World)
    (json_loads : string -> result J) (args : Args) (name : option string)
    (st : St World) :
  (engine args = None \/ engine args = Some EmptyString ->
   _list_containers sv args st
   = (Raise (ValueError "no container manager (Podman, Docker) found"), st))
  /\ (opt_truthy name = false ->
      _stop_container sv args name st
      = (Raise (ValueError "must specify a container name"), st))
  /\ (opt_truthy name = true -> engine args = Some EmptyString ->
      _stop_container sv args name st
      = (Raise (ValueError "no container manager (Podman, Docker) found"), st))
  /\ (engine args = Some EmptyString ->
      engine_info sv json_loads args st
      = (Raise (ValueError "no container manager (Podman, Docker) found"), st)).
Proof.
  split; [|split; [|split]].
  - intros [H | H]; unfold _list_containers; rewrite H; reflexivity.
  - intros H. unfold _stop_container. rewrite H. reflexivity.
  - intros Hn H. unfold _stop_container. rewrite Hn, H. reflexivity.
  - intros H. unfold engine_info. rewrite H. reflexivity.
Qed.

Lemma engine_adapter_preconditions_witness :
  _list_containers demo_services
    {| engine := None; store := "/var/lib/ramalama"; debug := false;
       ignore := false; all := false; NAME := None; MODEL := [];
       format := None; noheading := None; notrunc := None;
       json := false; quiet := false |} demo_st
  = (Raise (ValueError "no container manager (Podman, Docker) found"), demo_st)
  /\ _stop_container demo_services demo_args (Some EmptyString) demo_st
     = (Raise (ValueError "must specify a container name"), demo_st).
Proof.
  split.
  - refine (proj1 (engine_adapter_preconditions demo_services
                     (fun s : string => Ok s) _ None demo_st) _).
    left. reflexivity.
  - exact (proj1 (proj2 (engine_adapter_preconditions demo_services
                           (fun s : string => Ok s) demo_args (Some EmptyString)
                           demo_st)) eq_refl).
Defined.

(** One run of [_list_containers] with an engine. *)
Lemma _list_containers_run {World : Type} (sv : Services World) (args : Args)
    (st : St World) :
  engine args <> None -> engine args <> Some EmptyString ->
  _list_containers sv args st =
  match run_cmd sv (ps_argv args) false (debug args) st.1 with
  | (Ok out, w') =>
      (Ok (output_lines out),
       (w', st.2 ++ [EvRunCmd (ps_argv args) false (debug args)]))
  | (Raise e, w') =>
      (Raise e,
       (w', (st.2 ++ [EvRunCmd (ps_argv args) false (debug args)])
            ++ (if is_CalledProcessError e
                then [EvPerror "ramalama list command requires a running container engine"]
                else [])))
  end.
Proof.
  intros Hn He. unfold _list_containers, ps_argv, ps_flags, output_lines.
  rewrite (bool_decide_eq_false_2 _ He), (bool_decide_eq_false_2 _ Hn).
  cbn [orb]. cbv iota.
  destruct (default false (noheading args)), (default false (notrunc args)),
    (opt_truthy (format args)); cbn [app];
    unfold try_except, bind, call_run_cmd, call; cbv beta;
    (destruct (run_cmd sv _ false (debug args) st.1) as [[out | e] w'];
     [ simpl; destruct (String.eqb (strip out) EmptyString); reflexivity
     | simpl; destruct (is_CalledProcessError e); simpl;
       [ reflexivity | rewrite app_nil_r; reflexivity ] ]).
Qed.

(** X10: with an engine, [_list_containers] runs exactly one subprocess; its
    command line is the engine, [ps -a --filter label=ai.ramalama], then only
    the flags asked for; besides it, the run leaves at most messages on the
    error stream. *)
Theorem list_containers_filters_by_label {World : Type} (sv : Services World)
    (args : Args) (st : St World)
    (Hsome : engine args <> None) (Hname : engine args <> Some EmptyString) :
  exists r w' tail,
    _list_containers sv args st
    = (r, (w', st.2 ++ EvRunCmd ([engine args; Some "ps"; Some "-a"; Some "--filter";
                                  Some "label=ai.ramalama"] ++ ps_flags args)
                                false (debug args) :: tail))
    /\ (forall ev, In ev tail -> exists line, ev = EvPerror line).
Proof.
  rewrite (_list_containers_run sv args st Hsome Hname). unfold ps_argv.
  destruct (run_cmd sv _ false (debug args) st.1) as [[out | e] w'].
  - eexists _, _, []. split; [reflexivity|]. intros ev [].
  - destruct (is_CalledProcessError e).
    + eexists _, _, [_]. rewrite <- app_assoc. split; [reflexivity|].
      intros ev [<- | []]. eexists. reflexivity.
    + eexists _, _, []. rewrite app_nil_r. split; [reflexivity|]. intros ev [].
Qed.

Lemma list_containers_filters_by_label_witness :
  exists r w' tail,
    _list_containers live_services demo_ps_args live_st
    = (r, (w', live_st.2
               ++ EvRunCmd ([Some "podman"; Some "ps"; Some "-a"; Some "--filter";
                             Some "label=ai.ramalama"] ++ ps_flags demo_ps_args)
                           false false :: tail))
    /\ (forall ev, In ev tail -> exists line, ev = EvPerror line).
Proof.
  apply (list_containers_filters_by_label live_services demo_ps_args live_st);
    discriminate.
Defined.

Lemma split_char_nonempty (sep : ascii) (s : string) : split_char sep s <> [].
Proof.
  destruct s as [|c s]; simpl; [discriminate|].
  destruct (Ascii.eqb c sep); [discriminate|].
  destruct (split_char sep s); discriminate.
Qed.

(** Joining what [split] cut gives the text back. *)
Lemma concat_split_char (sep : ascii) (s : string) :
  String.concat (String sep EmptyString) (split_char sep s) = s.
Proof.
  induction s as [|c s IH]; simpl; [reflexivity|].
  destruct (Ascii.eqb_spec c sep) as [-> | Hne].
  - pose proof (split_char_nonempty sep s) as Hs.
    destruct (split_char sep s) as [|h t]; [contradiction|].
    simpl in *. rewrite IH. reflexivity.
  - pose proof (split_char_nonempty sep s) as Hs.
    destruct (split_char sep s) as [|h t]; [contradiction|].
    destruct t as [|h' t]; simpl in *; rewrite <- IH; reflexivity.
Qed.

(** No piece holds the separator. *)
Lemma split_char_no_sep (sep : ascii) (s : string) :
  Forall (fun line => contains (String sep EmptyString) line = false) (split_char sep s).
Proof.
  induction s as [|c s IH]; simpl.
  - repeat constructor.
  - destruct (Ascii.eqb_spec c sep) as [-> | Hne].
    + constructor; [reflexivity | exact IH].
    + pose proof (split_char_nonempty sep s) as Hs.
      destruct (split_char sep s) as [|h t]; [contradiction|].
      apply Forall_cons in IH as [Hh Ht]. constructor; [|exact Ht].
      simpl. rewrite (proj2 (Ascii.eqb_neq c sep) Hne). simpl. exact Hh.
Qed.

(** X11: when the engine answers, [_list_containers] returns no line for a
    blank output, and otherwise the lines of the output without its
    surrounding white space: none holds a newline, and joined by newlines
    they give that text back. *)
Theorem list_containers_lines {World : Type} (sv : Services World) (args : Args)
    (st : St World) (out : string) (w' : World)
    (Hsome : engine args <> None) (Hname : engine args <> Some EmptyString)
    (Hrun : run_cmd sv (ps_argv args) false (debug args) st.1 = (Ok out, w')) :
  exists lines,
    (_list_containers sv args st).1 = Ok lines
    /\ (strip out = EmptyString -> lines = [])
    /\ (strip out <> EmptyString ->
        lines <> [] /\ String.concat nl lines = strip out
        /\ Forall (fun line => contains nl line = false) lines).
Proof.
  rewrite (_list_containers_run sv args st Hsome Hname), Hrun.
  exists (output_lines out). split; [reflexivity|]. unfold output_lines.
  destruct (String.eqb_spec (strip out) EmptyString) as [He | Hne].
  - split; [reflexivity | contradiction].
  - split; [contradiction|]. intros _. split; [apply split_char_nonempty|].
    split; [apply concat_split_char | apply split_char_no_sep].
Qed.

Lemma list_containers_lines_witness :
  exists lines,
    (_list_containers live_services demo_ps_args live_st).1 = Ok lines
    /\ (strip ("c1" +:+ nl +:+ "c2" +:+ nl) = EmptyString -> lines = [])
    /\ (strip ("c1" +:+ nl +:+ "c2" +:+ nl) <> EmptyString ->
        lines <> [] /\ String.concat nl lines = strip ("c1" +:+ nl +:+ "c2" +:+ nl)
        /\ Forall (fun line => contains nl line = false) lines).
Proof.
  apply (list_containers_lines live_services demo_ps_args live_st
           ("c1" +:+ nl +:+ "c2" +:+ nl) live_st.1);
    [discriminate | discriminate | reflexivity].
Defined.

Lemma bind_ok {World A B : Type} (c : M World A) (k : A -> M World B)
    (st st' : St World) (a : A) :
  c st = (Ok a, st') -> bind c k st = k a st'.
Proof. intros H. unfold bind. rewrite H. reflexivity. Qed.

Lemma bind_raise {World A B : Type} (c : M World A) (k : A -> M World B)
    (st st' : St World) (e : exn) :
  c st = (Raise e, st') -> bind c k st = (Raise e, st').
Proof. intros H. unfold bind. rewrite H. reflexivity. Qed.

(** X12: [list_containers] asks the engine once when it reports no
    container, and prints nothing; when it reports some, it asks a second
    time and prints the lines of the second answer. *)
Theorem list_containers_asks_twice {World : Type} (sv : Services World) (args : Args)
    (st : St World) (out1 : string) (w1 : World)
    (Hsome : engine args <> None) (Hname : engine args <> Some EmptyString)
    (Hrun1 : run_cmd sv (ps_argv args) false (debug args) st.1 = (Ok out1, w1)) :
  (strip out1 = EmptyString ->
   list_containers sv args st
   = (Ok tt, (w1, st.2 ++ [EvRunCmd (ps_argv args) false (debug args)])))
  /\ (strip out1 <> EmptyString ->
      forall out2 w2,
        run_cmd sv (ps_argv args) false (debug args) w1 = (Ok out2, w2) ->
        list_containers sv args st
        = (Ok tt, (w2, st.2 ++ [EvRunCmd (ps_argv args) false (debug args);
                                EvRunCmd (ps_argv args) false (debug args);
                                EvPrint (String.concat nl (output_lines out2))]))).
Proof.
  assert (H1 : _list_containers sv args st
               = (Ok (output_lines out1),
                  (w1, st.2 ++ [EvRunCmd (ps_argv args) false (debug args)])))
    by (rewrite (_list_containers_run sv args st Hsome Hname), Hrun1; reflexivity).
  unfold list_containers. rewrite (bind_ok _ _ _ _ _ H1). clear H1.
  split.
  - intros He. unfold output_lines. rewrite He. reflexivity.
  - intros Hne out2 w2 Hrun2. unfold output_lines at 1.
    rewrite (proj2 (String.eqb_neq _ _) Hne).
    pose proof (split_char_nonempty nl_char (strip out1)) as Hs.
    destruct (split_char nl_char (strip out1)) as [|l ls]; [contradiction|].
    cbn [length Nat.eqb].
    assert (H2 : _list_containers sv args
                   (w1, st.2 ++ [EvRunCmd (ps_argv args) false (debug args)])
                 = (Ok (output_lines out2),
                    (w2, (st.2 ++ [EvRunCmd (ps_argv args) false (debug args)])
                         ++ [EvRunCmd (ps_argv args) false (debug args)])))
      by (rewrite (_list_containers_run sv args _ Hsome Hname); cbn [fst snd];
          rewrite Hrun2; reflexivity).
    rewrite (bind_ok _ _ _ _ _ H2).
    unfold print, emit. cbn [fst snd]. rewrite <- !app_assoc. reflexivity.
Qed.

Lemma list_containers_asks_twice_witness :
  list_containers live_services demo_ps_args live_st
  = (Ok tt, (live_st.1,
             live_st.2 ++ [EvRunCmd (ps_argv demo_ps_args) false false;
                           EvRunCmd (ps_argv demo_ps_args) false false;
                           EvPrint (String.concat nl
                                      (output_lines ("c1" +:+ nl +:+ "c2" +:+ nl)))])).
Proof.
  refine (proj2 (list_containers_asks_twice live_services demo_ps_args live_st
                   ("c1" +:+ nl +:+ "c2" +:+ nl) live_st.1 _ _ eq_refl)
            _ ("c1" +:+ nl +:+ "c2" +:+ nl) live_st.1 eq_refl);
    discriminate.
Defined.

(** ** [stop --all] *)

Lemma stop_container_all {World : Type} (sv : Services World) (args : Args) :
  all args = true -> opt_truthy (NAME args) = false ->
  stop_container sv args
  = bind (_list_containers sv (stop_all_args args))
         (fun names => for_each names
                         (fun i => _stop_container sv (stop_all_args args) (Some i))).
Proof. intros Ha Hn. unfold stop_container. rewrite Ha, Hn. reflexivity. Qed.

(** One stop of [stop --all], in terms of what the engine answers. *)
Lemma stop_all_one {World : Type} (sv : Services World) (args : Args) (n : string)
    (st : St World) :
  n <> EmptyString -> engine args <> Some EmptyString ->
  exists argv q,
    stop_all_event args n = EvRunCmd argv q (debug args)
    /\ _stop_container sv (stop_all_args args) (Some n) st =
       match run_cmd sv argv q (debug args) st.1 with
       | (Ok _, w') => (Ok tt, (w', st.2 ++ [stop_all_event args n]))
       | (Raise e, w') =>
           (if is_CalledProcessError e && bool_decide (engine args = Some "docker")
            then Ok tt else Raise e,
            (w', st.2 ++ [stop_all_event args n]))
       end.
Proof.
  intros Hn He.
  rewrite (_stop_container_run sv (stop_all_args args) (Some n) st).
  2:{ simpl. unfold str_truthy. rewrite (str_eqb_false _ _ Hn). reflexivity. }
  2:{ exact He. }
  unfold stop_argv, stop_ignore_stderr, stop_all_event. simpl.
  destruct (bool_decide (engine args = Some "podman")) eqn:Hp.
  - apply bool_decide_eq_true_1 in Hp. rewrite Hp. simpl.
    eexists _, _. split; [reflexivity|].
    destruct (run_cmd sv _ _ _ st.1) as [[out | e] w']; [reflexivity|].
    rewrite andb_true_r. reflexivity.
  - simpl. eexists _, _. split; [reflexivity|].
    destruct (run_cmd sv _ _ _ st.1) as [[out | e] w']; [reflexivity|].
    rewrite andb_true_r. reflexivity.
Qed.

(** The loop of [stop --all] when no stop fails, or only by a non-zero exit
    of docker. *)
Lemma stop_all_loop {World : Type} (sv : Services World) (args : Args)
    (names : list string) :
  engine args <> Some EmptyString ->
  Forall (fun n => n <> EmptyString) names ->
  (forall argv q dbg w,
      (exists out w', run_cmd sv argv q dbg w = (Ok out, w'))
      \/ (engine args = Some "docker"
          /\ exists rc w', run_cmd sv argv q dbg w = (Raise (CalledProcessError rc), w'))) ->
  forall st : St World,
  exists w',
    for_each names (fun i => _stop_container sv (stop_all_args args) (Some i)) st
    = (Ok tt, (w', st.2 ++ map (stop_all_event args) names)).
Proof.
  intros He Hnames Hrun. induction Hnames as [|n names Hn _ IH]; intros st.
  - exists st.1. simpl. unfold ret. rewrite app_nil_r. destruct st; reflexivity.
  - destruct (stop_all_one sv args n st Hn He) as (argv & q & Hev & Hstep).
    assert (exists w1, _stop_container sv (stop_all_args args) (Some n) st
                       = (Ok tt, (w1, st.2 ++ [stop_all_event args n]))) as [w1 H1].
    { rewrite Hstep.
      destruct (Hrun argv q (debug args) st.1) as [(out & w' & H) | (Hd & rc & w' & H)];
        rewrite H; [eexists; reflexivity|].
      simpl. rewrite bool_decide_eq_true_2 by exact Hd. eexists; reflexivity. }
    destruct (IH (w1, st.2 ++ [stop_all_event args n])) as [w' Hrest].
    exists w'. simpl for_each. rewrite (bind_ok _ _ _ _ _ H1), Hrest.
    simpl. rewrite <- app_assoc. reflexivity.
Qed.

(** X13: [stop --all] stops every listed container once, in the order of
    the listing, with the ignore flag forced on whatever the caller gave:
    [--ignore True] for podman, a silenced error stream for any other engine.
    It ends normally when every stop succeeds, and with docker also when
    stops exit with a non-zero status. *)
Theorem stop_all_stops_each {World : Type} (sv : Services World) (args : Args)
    (names : list string) (st st1 : St World)
    (Hall : all args = true) (Hnoname : opt_truthy (NAME args) = false)
    (Hengine : engine args <> Some EmptyString)
    (Hlist : _list_containers sv (stop_all_args args) st = (Ok names, st1))
    (Hnames : Forall (fun n => n <> EmptyString) names)
    (Hrun : forall argv q dbg w,
        (exists out w', run_cmd sv argv q dbg w = (Ok out, w'))
        \/ (engine args = Some "docker"
            /\ exists rc w',
                run_cmd sv argv q dbg w = (Raise (CalledProcessError rc), w'))) :
  exists w',
    stop_container sv args st
    = (Ok tt, (w', st1.2 ++ map (stop_all_event args) names)).
Proof.
  rewrite (stop_container_all sv args Hall Hnoname).
  rewrite (bind_ok _ _ _ _ _ Hlist).
  apply stop_all_loop; assumption.
Qed.

Lemma stop_all_stops_each_witness :
  exists w',
    stop_container live_services demo_stop_all live_st
    = (Ok tt, (w', (live_st.2
                    ++ [EvRunCmd (ps_argv (stop_all_args demo_stop_all)) false false])
                   ++ map (stop_all_event demo_stop_all) ["c1"; "c2"])).
Proof.
  refine (stop_all_stops_each live_services demo_stop_all ["c1"; "c2"] live_st
            (live_st.1, live_st.2
                        ++ [EvRunCmd (ps_argv (stop_all_args demo_stop_all)) false false])
            eq_refl eq_refl _ eq_refl _ _).
  - discriminate.
  - repeat constructor; discriminate.
  - intros argv q dbg w. left. simpl.
    destruct (bool_decide _); eexists _, _; reflexivity.
Defined.



(** ** [rm] *)

Lemma New_raises_KeyError (config : gmap string pyval) (model : string) (args : Args)
    (e : exn) :
  New config model args = Raise e -> is_KeyError e = true.
Proof.
  destruct (spec_owner model) as [t|] eqn:Ho.
  - rewrite (New_first_match config model args t Ho). discriminate.
  - rewrite (New_no_match config model args Ho).
    destruct (spec_default_transport _); [discriminate|].
    intros [= <-]. reflexivity.
Qed.


(** A step of [_rm_model], by the outcome of its first attempt and of the
    fallback. *)
Lemma _rm_model_step_cases {World : Type} (sv : Services World)
    (config : gmap string pyval) (model : string) (args : Args) (st : St World) :
  _rm_model_step sv config model args st =
  match first_attempt sv config model args st with
  | (Ok _, st1) => (Ok Continue, st1)
  | (Raise e, st1) =>
      if is_KeyError e then
        if has_model_type_prefix sv (resolve_shortname sv model) && negb (ignore args)
        then (Raise e, st1)
        else
          match model_remove sv (OCI (resolve_shortname sv model) (engine args))
                  args true st1.1 with
          | (Ok _, w2) =>
              (Ok Return,
               (w2, st1.2 ++ [EvRemove (OCI (resolve_shortname sv model) (engine args))
                                args true]))
          | (Raise _, w2) =>
              (if ignore args then Ok Continue else Raise e,
               (w2, st1.2 ++ [EvRemove (OCI (resolve_shortname sv model) (engine args))
                                args true]))
          end
      else (Raise e, st1)
  end.
Proof.
  unfold _rm_model_step, first_attempt, has_model_type_prefix.
  unfold try_except at 1. unfold bind at 1.
  destruct (New config (resolve_shortname sv model) args) as [b | e0]; simpl lift_result.
  - unfold ret at 1. unfold bind at 1. unfold call_remove at 1. unfold call at 1.
    destruct (model_remove sv b args false st.1) as [[[] | e] w1]; [reflexivity|].
    destruct (is_KeyError e); [|reflexivity].
    destruct (existsb _ _ && negb (ignore args)); [reflexivity|].
    unfold bind, try_except, call_remove, call. simpl.
    destruct (model_remove sv (OCI _ _) args true w1) as [[[] | e2] w2]; simpl;
      [reflexivity|]. destruct (ignore args); reflexivity.
  - unfold raise at 1.
    destruct (is_KeyError e0); [|reflexivity].
    destruct (existsb _ _ && negb (ignore args)); [reflexivity|].
    unfold bind, try_except, call_remove, call. simpl.
    destruct (model_remove sv (OCI _ _) args true st.1) as [[[] | e2] w2]; simpl;
      [reflexivity|]. destruct (ignore args); reflexivity.
Qed.

(** X15: when the first attempt on a name ends in [KeyError] (the name has no
    prefix of [MODEL_TYPES], or the ignore flag is on) and the OCI fallback
    removes it, [_rm_model] returns at once: the names after it in the list
    are not looked at. *)
Theorem rm_model_returns_after_fallback {World : Type} (sv : Services World)
    (config : gmap string pyval) (model : string) (rest : list string) (args : Args)
    (st st1 : St World) (e : exn) (w2 : World)
    (Hfirst : first_attempt sv config model args st = (Raise e, st1))
    (Hkey : is_KeyError e = true)
    (Hprefix : has_model_type_prefix sv (resolve_shortname sv model) = false
               \/ ignore args = true)
    (Hfallback : model_remove sv (OCI (resolve_shortname sv model) (engine args))
                   args true st1.1 = (Ok tt, w2)) :
  _rm_model sv config (model :: rest) args st
  = (Ok tt, (w2, st1.2 ++ [EvRemove (OCI (resolve_shortname sv model) (engine args))
                             args true])).
Proof.
  simpl _rm_model.
  assert (Hstep : _rm_model_step sv config model args st
                  = (Ok Return,
                     (w2, st1.2 ++ [EvRemove (OCI (resolve_shortname sv model)
                                                (engine args)) args true]))).
  { rewrite _rm_model_step_cases, Hfirst, Hkey.
    replace (_ && negb (ignore args)) with false
      by (destruct Hprefix as [-> | ->]; [reflexivity | rewrite andb_false_r; reflexivity]).
    rewrite Hfallback. reflexivity. }
  rewrite (bind_ok _ _ _ _ _ Hstep). reflexivity.
Qed.

Lemma rm_model_returns_after_fallback_witness :
  _rm_model live_services demo_config ["quay.io/models/m:latest"; "tiny"] demo_args live_st
  = (Ok tt,
     (["ollama://tinyllama"],
      (live_st.2 ++ [EvRemove (Ollama "quay.io/models/m:latest") demo_args false])
      ++ [EvRemove (OCI "quay.io/models/m:latest" (Some "docker")) demo_args true])).
Proof.
  refine (rm_model_returns_after_fallback live_services demo_config
            "quay.io/models/m:latest" ["tiny"] demo_args live_st
            (live_st.1,
             live_st.2 ++ [EvRemove (Ollama "quay.io/models/m:latest") demo_args false])
            (KeyError "model not found") ["ollama://tinyllama"]
            eq_refl eq_refl _ eq_refl).
  left. reflexivity.
Defined.

(** X16: with the ignore flag, [_rm_model] cannot fail as long as the
    backends fail only with [KeyError] on the first attempt: whatever the
    names, the transports and the outcome of the fallback, it returns
    normally. *)
Theorem rm_model_ignore_never_raises {World : Type} (sv : Services World)
    (config : gmap string pyval) (args : Args)
    (Hignore : ignore args = true)
    (Hremove : forall b w,
        (exists w', model_remove sv b args false w = (Ok tt, w'))
        \/ (exists msg w', model_remove sv b args false w = (Raise (KeyError msg), w'))) :
  forall (models : list string) (st : St World),
  exists st', _rm_model sv config models args st = (Ok tt, st').
Proof.
  induction models as [|model rest IH]; intros st.
  - eexists. reflexivity.
  - assert (Hstep : exists x st1, _rm_model_step sv config model args st = (Ok x, st1)).
    { rewrite _rm_model_step_cases. unfold first_attempt.
      assert (Hhandler : forall e st1, is_KeyError e = true ->
                exists x st2,
                  (if is_KeyError e
                   then if has_model_type_prefix sv (resolve_shortname sv model)
                           && negb (ignore args)
                        then (Raise e, st1)
                        else match model_remove sv
                                     (OCI (resolve_shortname sv model) (engine args))
                                     args true st1.1 with
                             | (Ok _, w2) =>
                                 (Ok Return,
                                  (w2, st1.2 ++ [EvRemove (OCI (resolve_shortname sv model)
                                                            (engine args)) args true]))
                             | (Raise _, w2) =>
                                 (if ignore args then Ok Continue else Raise e,
                                  (w2, st1.2 ++ [EvRemove (OCI (resolve_shortname sv model)
                                                            (engine args)) args true]))
                             end
                   else (Raise e, st1)) = (Ok x, st2)).
      { intros e st1 He. rewrite He, Hignore, andb_false_r.
        destruct (model_remove sv _ args true st1.1) as [[[] | e2] w2];
          eexists _, _; reflexivity. }
      destruct (New config (resolve_shortname sv model) args) as [b | e] eqn:HN.
      - destruct (Hremove b st.1) as [(w' & H) | (msg & w' & H)]; rewrite H.
        + eexists _, _. reflexivity.
        + apply Hhandler. reflexivity.
      - apply Hhandler. exact (New_raises_KeyError _ _ _ _ HN). }
    destruct Hstep as (x & st1 & Hstep).
    simpl _rm_model. rewrite (bind_ok _ _ _ _ _ Hstep).
    destruct x; [apply IH | eexists; reflexivity].
Qed.

Lemma rm_model_ignore_never_raises_witness :
  exists st',
    _rm_model live_services {[ "transport" := VStr "s3" ]}
      ["nothing"; "oci://absent"; "tiny"] (set_ignore demo_args true) live_st
    = (Ok tt, st').
Proof.
  apply (rm_model_ignore_never_raises live_services {[ "transport" := VStr "s3" ]}
           (set_ignore demo_args true) eq_refl).
  intros b w. simpl. unfold live_remove.
  destruct (_ && _); [left | right]; eexists; try eexists; reflexivity.
Defined.

(** X17: when every name resolves to a backend and every removal succeeds,
    [_rm_model] asks each backend once, in the order of the names, after
    expanding short names, and never tries the OCI fallback. *)
Theorem rm_model_removes_each_once {World : Type} (sv : Services World)
    (config : gmap string pyval) (args : Args) (models : list string)
    (Hresolved : Forall (fun m => exists b, New config (resolve_shortname sv m) args = Ok b)
                        models)
    (Hremove : forall b w, exists w', model_remove sv b args false w = (Ok tt, w')) :
  forall st : St World,
  exists w',
    _rm_model sv config models args st
    = (Ok tt, (w', st.2 ++ flat_map (removal_event sv config args) models)).
Proof.
  induction Hresolved as [|model rest [b Hb] _ IH]; intros st.
  - exists st.1. simpl. unfold ret. rewrite app_nil_r. destruct st; reflexivity.
  - destruct (Hremove b st.1) as [w1 H1].
    assert (Hstep : _rm_model_step sv config model args st
                    = (Ok Continue, (w1, st.2 ++ [EvRemove b args false]))).
    { rewrite _rm_model_step_cases. unfold first_attempt. rewrite Hb, H1. reflexivity. }
    destruct (IH (w1, st.2 ++ [EvRemove b args false])) as [w' Hrest].
    exists w'. simpl _rm_model. rewrite (bind_ok _ _ _ _ _ Hstep), Hrest.
    simpl. unfold removal_event at 2. rewrite Hb. rewrite <- app_assoc. reflexivity.
Qed.

Lemma rm_model_removes_each_once_witness :
  exists w',
    _rm_model obliging_services demo_config ["tiny"; "oci://quay.io/m"] demo_args live_st
    = (Ok tt, (w', live_st.2
                   ++ [EvRemove (Ollama "ollama://tinyllama") demo_args false;
                       EvRemove (OCI "oci://quay.io/m" (Some "docker")) demo_args false])).
Proof.
  apply (rm_model_removes_each_once obliging_services demo_config demo_args
           ["tiny"; "oci://quay.io/m"]).
  - repeat constructor; eexists; reflexivity.
  - intros b w. eexists. reflexivity.
Defined.

(** X18: a name without prefix under an unsupported default transport is
    still tried as a container image: if the OCI backend removes it, [rm]
    succeeds; if it does not and the ignore flag is off, the error raised is
    the one that names the transport. *)
Theorem rm_model_unsupported_transport {World : Type} (sv : Services World)
    (config : gmap string pyval) (model : string) (rest : list string) (args : Args)
    (st : St World)
    (Hnone : spec_owner (resolve_shortname sv model) = None)
    (Htransport : spec_default_transport (dict_get config "transport" (VStr "ollama"))
                  = None)
    (Hprefix : has_model_type_prefix sv (resolve_shortname sv model) = false) :
  (forall w2,
      model_remove sv (OCI (resolve_shortname sv model) (engine args)) args true st.1
      = (Ok tt, w2) ->
      _rm_model sv config (model :: rest) args st
      = (Ok tt, (w2, st.2 ++ [EvRemove (OCI (resolve_shortname sv model) (engine args))
                                args true])))
  /\ (forall e2 w2,
         model_remove sv (OCI (resolve_shortname sv model) (engine args)) args true st.1
         = (Raise e2, w2) ->
         ignore args = false ->
         _rm_model sv config (model :: rest) args st
         = (Raise (unsupported_transport (dict_get config "transport" (VStr "ollama"))),
            (w2, st.2 ++ [EvRemove (OCI (resolve_shortname sv model) (engine args))
                            args true]))).
Proof.
  assert (Hfirst : first_attempt sv config model args st
                   = (Raise (unsupported_transport
                               (dict_get config "transport" (VStr "ollama"))), st)).
  { unfold first_attempt. rewrite (New_no_match config _ args Hnone), Htransport.
    reflexivity. }
  split.
  - intros w2 Hf. simpl _rm_model.
    assert (Hstep : _rm_model_step sv config model args st
                    = (Ok Return,
                       (w2, st.2 ++ [EvRemove (OCI (resolve_shortname sv model)
                                                 (engine args)) args true]))).
    { rewrite _rm_model_step_cases, Hfirst. cbn [is_KeyError unsupported_transport].
      rewrite Hprefix. cbn [andb fst snd]. rewrite Hf. reflexivity. }
    rewrite (bind_ok _ _ _ _ _ Hstep). reflexivity.
  - intros e2 w2 Hf Hig. simpl _rm_model.
    apply bind_raise.
    rewrite _rm_model_step_cases, Hfirst. cbn [is_KeyError unsupported_transport].
    rewrite Hprefix. cbn [andb fst snd]. rewrite Hf, Hig. reflexivity.
Qed.

Lemma rm_model_unsupported_transport_witness :
  _rm_model live_services {[ "transport" := VStr "s3" ]}
    ["quay.io/models/m:latest"; "tiny"] demo_args live_st
  = (Ok tt,
     (["ollama://tinyllama"],
      live_st.2 ++ [EvRemove (OCI "quay.io/models/m:latest" (Some "docker"))
                      demo_args true])).
Proof.
  exact (proj1 (rm_model_unsupported_transport live_services
                  {[ "transport" := VStr "s3" ]} "quay.io/models/m:latest" ["tiny"]
                  demo_args live_st eq_refl eq_refl eq_refl)
           ["ollama://tinyllama"] eq_refl).
Defined.

(** ** [list] *)

Lemma str_length_app (a b : string) :
  String.length (a +:+ b) = (String.length a + String.length b)%nat.
Proof. induction a as [|c a IH]; simpl; [reflexivity | rewrite IH; reflexivity]. Qed.

Lemma length_spaces (n : nat) : String.length (spaces n) = n.
Proof. induction n as [|n IH]; simpl; [reflexivity | rewrite IH; reflexivity]. Qed.

Lemma length_ljust (s : string) (w : nat) :
  String.length (ljust s w) = Nat.max (String.length s) w.
Proof. unfold ljust. rewrite str_length_app, length_spaces. lia. Qed.

Lemma length_str_map (f : ascii -> ascii) (s : string) :
  String.length (str_map f s) = String.length s.
Proof. induction s as [|c s IH]; simpl; [reflexivity | rewrite IH; reflexivity]. Qed.

(** The widths cover the headings and every field of every model. *)
Lemma column_widths_fold (l : list ModelEntry) (acc : nat * nat * nat) :
  let r := fold_left
             (fun '(name_width, modified_width, size_width) model =>
                (Nat.max name_width (String.length (name model)),
                 Nat.max modified_width (String.length (render_modified model)),
                 Nat.max size_width (String.length (size model))))
             l acc in
  (acc.1.1 <= r.1.1 /\ acc.1.2 <= r.1.2 /\ acc.2 <= r.2)%nat
  /\ forall m, In m l ->
       (String.length (name m) <= r.1.1
        /\ String.length (render_modified m) <= r.1.2
        /\ String.length (size m) <= r.2)%nat.
Proof.
  revert acc. induction l as [|x l IH]; intros [[a b] c]; simpl.
  - split; [lia | intros m []].
  - specialize (IH (Nat.max a (String.length (name x)),
                    Nat.max b (String.length (render_modified x)),
                    Nat.max c (String.length (size x)))).
    simpl in IH. destruct IH as [Hacc Hin]. split; [lia|].
    intros m [<- | Hm]; [lia | apply Hin; exact Hm].
Qed.

Lemma column_widths_bound (models : list ModelEntry) :
  (4 <= (column_widths models).1.1 /\ 8 <= (column_widths models).1.2
   /\ 4 <= (column_widths models).2)%nat
  /\ forall m, In m models ->
       (String.length (name m) <= (column_widths models).1.1
        /\ String.length (render_modified m) <= (column_widths models).1.2
        /\ String.length (size m) <= (column_widths models).2)%nat.
Proof.
  unfold column_widths.
  destruct (column_widths_fold (sorted_by_str name models)
              (String.length "NAME", String.length "MODIFIED", String.length "SIZE"))
    as [Hacc Hin].
  split; [exact Hacc|].
  intros m Hm. apply Hin.
  apply (Permutation_in m (sort_by_perm _ models)). exact Hm.
Qed.

(** What [list_cli] prints outside JSON mode. *)
Lemma list_cli_output {World : Type} (sv : Services World)
    (config : gmap string pyval) (args : Args) (st st' : St World)
    (models : list ModelEntry) (nh : bool) :
  json args = false -> noheading args = Some nh ->
  _list_models sv config args st = (Ok models, st') ->
  list_cli sv config args st
  = (Ok tt, (st'.1, st'.2 ++ map EvPrint (list_lines args nh models))).
Proof.
  intros Hj Hnh Hl. unfold list_cli. rewrite (bind_ok _ _ _ _ _ Hl), Hj, Hnh.
  unfold list_lines, list_heading.
  destruct (column_widths models) as [[nw mw] sw] eqn:Hw.
  destruct (quiet args) eqn:Hq; [|destruct nh]; simpl.
  - unfold bind at 1. unfold ret at 1. unfold bind at 1. unfold ret at 1.
    rewrite for_each_print. simpl. rewrite map_map. reflexivity.
  - unfold bind at 1. unfold ret at 1. unfold bind at 1. unfold ret at 1.
    rewrite for_each_print. simpl. rewrite map_map. reflexivity.
  - unfold bind at 1. unfold ret at 1. unfold bind at 1. unfold print at 1.
    unfold emit at 1. rewrite for_each_print. simpl.
    rewrite map_map, <- app_assoc. reflexivity.
Qed.

(** X19: outside quiet and JSON mode the listing is aligned: the heading
    and every row have the same length, the three column widths plus the
    two separating blanks, and no column is narrower than its heading. *)
Theorem list_cli_columns_aligned {World : Type} (sv : Services World)
    (config : gmap string pyval) (args : Args) (st st' : St World)
    (models : list ModelEntry) (nh : bool)
    (Hjson : json args = false) (Hquiet : quiet args = false)
    (Hnh : noheading args = Some nh)
    (Hlist : _list_models sv config args st = (Ok models, st')) :
  exists lines nw mw sw,
    list_cli sv config args st = (Ok tt, (st'.1, st'.2 ++ map EvPrint lines))
    /\ length lines = ((if nh then 0 else 1) + length models)%nat
    /\ (4 <= nw /\ 8 <= mw /\ 4 <= sw)%nat
    /\ Forall (fun line => String.length line = (nw + mw + sw + 2)%nat) lines.
Proof.
  exists (list_lines args nh models), (column_widths models).1.1,
    (column_widths models).1.2, (column_widths models).2.
  split; [apply list_cli_output; assumption|].
  destruct (column_widths_bound models) as [Hmin Hfields].
  split; [|split; [exact Hmin|]].
  - unfold list_lines. rewrite Hquiet, length_app, length_map.
    destruct nh; reflexivity.
  - unfold list_lines. apply Forall_app. split.
    + destruct (negb (quiet args) && negb nh); [|constructor].
      constructor; [|constructor]. unfold list_heading.
      rewrite !str_length_app, !length_ljust. simpl String.length. lia.
    + apply List.Forall_forall. intros line Hline.
      apply in_map_iff in Hline as (m & <- & Hm).
      destruct (Hfields m Hm) as (H1 & H2 & H3).
      unfold list_row. destruct (column_widths models) as [[nw mw] sw].
      rewrite Hquiet. simpl in *.
      rewrite !str_length_app, !length_ljust. unfold upper.
      rewrite length_str_map. simpl String.length. lia.
Qed.

Lemma list_cli_columns_aligned_witness :
  exists lines nw mw sw,
    list_cli demo_services demo_config demo_args demo_st
    = (Ok tt, ((_list_models demo_services demo_config demo_args demo_st).2.1,
               (_list_models demo_services demo_config demo_args demo_st).2.2
               ++ map EvPrint lines))
    /\ length lines = (1 + 2)%nat
    /\ (4 <= nw /\ 8 <= mw /\ 4 <= sw)%nat
    /\ Forall (fun line => String.length line = (nw + mw + sw + 2)%nat) lines.
Proof.
  apply (list_cli_columns_aligned demo_services demo_config demo_args demo_st
           (_list_models demo_services demo_config demo_args demo_st).2
           [mkEntry "ollama://foo" (MSeconds 5) "10 B";
            mkEntry "oci://bar" (MText "3 weeks ago") "20 B"] false);
    reflexivity.
Defined.

Lemma Sorted_weaken {A : Type} (R R' : A -> A -> Prop) (l : list A) :
  (forall a b, R a b -> R' a b) -> Sorted R l -> Sorted R' l.
Proof.
  intros HR Hs. induction Hs as [|x l Hs IH Hhd]; constructor; [exact IH|].
  destruct Hhd; constructor. apply HR. assumption.
Qed.

(** The loop of [list_files_by_modification] over paths that all exist:
    every path is kept, nothing is called. *)
Lemma scan_paths_all_exist {World : Type} (sv : Services World)
    (config : gmap string pyval) (args : Args) (paths acc : list string)
    (st : St World) :
  Forall (fun p => path_exists sv st.1 p = true) paths ->
  scan_paths sv config paths args acc st = (Ok (acc ++ paths), st).
Proof.
  destruct st as [w tr]. cbn [fst]. intros H. revert acc.
  induction H as [|p paths Hp _ IH]; intros acc; cbn [scan_paths].
  - unfold ret. rewrite app_nil_r. reflexivity.
  - unfold bind at 1.
    destruct (startswith p "file/");
      unfold bind, observe, ret; cbn [fst snd]; rewrite Hp;
      cbn [negb fst snd]; rewrite ?Hp;
      rewrite IH, <- app_assoc; reflexivity.
Qed.

(** X20: when no link of the store is dangling, [list_files_by_modification]
    touches nothing and returns the paths of the store, each once, newest
    first by modification time. *)
Theorem list_files_newest_first {World : Type} (sv : Services World)
    (config : gmap string pyval) (args : Args) (st : St World)
    (Hexist : Forall (fun p => path_exists sv st.1 p = true) (rglob sv st.1)) :
  exists files,
    list_files_by_modification sv config args st = (Ok files, st)
    /\ Permutation (rglob sv st.1) files
    /\ Sorted (fun a b => getmtime sv st.1 b <= getmtime sv st.1 a) files.
Proof.
  exists (sorted_by_Z_reverse (getmtime sv st.1) (rglob sv st.1)).
  split; [|split].
  - unfold list_files_by_modification. unfold bind at 1. unfold observe at 1.
    rewrite (bind_ok _ _ _ _ _ (scan_paths_all_exist sv config args _ [] st Hexist)).
    reflexivity.
  - apply sort_by_perm.
  - unfold sorted_by_Z_reverse.
    eapply Sorted_weaken; [|apply sort_by_sorted].
    + intros a b H. apply Z.leb_le. exact H.
    + intros x y H. apply Z.leb_gt in H. apply Z.leb_le. lia.
Qed.

Lemma list_files_newest_first_witness :
  exists files,
    list_files_by_modification demo_services demo_config demo_args demo_st
    = (Ok files, demo_st)
    /\ Permutation (rglob demo_services demo_st.1) files
    /\ Sorted (fun a b => getmtime demo_services demo_st.1 b
                          <= getmtime demo_services demo_st.1 a) files.
Proof.
  apply (list_files_newest_first demo_services demo_config demo_args demo_st).
  repeat constructor.
Defined.

(** X21: [_list_models] changes into the models directory of the store,
    lists the local models (symbolic links only, newest first) before the
    entries of the OCI listing, and changes back to where it started; when
    the OCI listing raises, the error leaves at once and the working
    directory is not restored. *)
Theorem list_models_local_then_oci {World : Type} (sv : Services World)
    (config : gmap string pyval) (args : Args) (st : St World) (w1 : World)
    (Hchdir : chdir sv (store args +:+ "/models/") st.1 = (Ok tt, w1))
    (Hexist : Forall (fun p => path_exists sv w1 p = true) (rglob sv w1)) :
  (forall oci w2 w3,
      oci_list_models sv args w1 = (Ok oci, w2) ->
      chdir sv (getcwd sv st.1) w2 = (Ok tt, w3) ->
      _list_models sv config args st
      = (Ok (local_entries sv w1 ++ oci),
         (w3, st.2 ++ [EvChdir (store args +:+ "/models/"); EvOciList args;
                       EvChdir (getcwd sv st.1)])))
  /\ (forall e w2,
         oci_list_models sv args w1 = (Raise e, w2) ->
         _list_models sv config args st
         = (Raise e, (w2, st.2 ++ [EvChdir (store args +:+ "/models/");
                                   EvOciList args]))).
Proof.
  assert (Hfiles : list_files_by_modification sv config args
                     (w1, st.2 ++ [EvChdir (store args +:+ "/models/")])
                   = (Ok (sorted_by_Z_reverse (getmtime sv w1) (rglob sv w1)),
                      (w1, st.2 ++ [EvChdir (store args +:+ "/models/")]))).
  { unfold list_files_by_modification. unfold bind at 1. unfold observe at 1.
    cbn [fst snd].
    rewrite (bind_ok _ _ _ _ _
               (scan_paths_all_exist sv config args _ []
                  (w1, st.2 ++ [EvChdir (store args +:+ "/models/")]) Hexist)).
    reflexivity. }
  split.
  - intros oci w2 w3 Hoci Hback.
    unfold _list_models. unfold bind at 1. unfold observe at 1.
    unfold bind at 1. unfold call at 1. rewrite Hchdir.
    rewrite (bind_ok _ _ _ _ _ Hfiles).
    unfold bind at 1. unfold observe at 1.
    unfold bind at 1. unfold call at 1. cbn [fst snd]. rewrite Hoci.
    unfold bind at 1. unfold call at 1. cbn [fst snd]. rewrite Hback.
    unfold ret, local_entries. rewrite <- !app_assoc. reflexivity.
  - intros e w2 Hoci.
    unfold _list_models. unfold bind at 1. unfold observe at 1.
    unfold bind at 1. unfold call at 1. rewrite Hchdir.
    rewrite (bind_ok _ _ _ _ _ Hfiles).
    unfold bind at 1. unfold observe at 1.
    unfold bind at 1. unfold call at 1. cbn [fst snd]. rewrite Hoci.
    rewrite <- !app_assoc. reflexivity.
Qed.

Lemma list_models_local_then_oci_witness :
  _list_models demo_services demo_config demo_args demo_st
  = (Ok (local_entries demo_services "/var/lib/ramalama/models/"
         ++ [mkEntry "oci://bar" (MText "3 weeks ago") "20 B"]),
     ("/home/user",
      demo_st.2 ++ [EvChdir "/var/lib/ramalama/models/"; EvOciList demo_args;
                    EvChdir "/home/user"])).
Proof.
  refine (proj1 (list_models_local_then_oci demo_services demo_config demo_args demo_st
                   "/var/lib/ramalama/models/" eq_refl _)
            [mkEntry "oci://bar" (MText "3 weeks ago") "20 B"]
            "/var/lib/ramalama/models/" "/home/user" eq_refl eq_refl).
  repeat constructor.
Defined.

(** The loop of [list_files_by_modification] passes over a stretch of paths
    that exist without calling anything. *)
Lemma scan_paths_app_exist {World : Type} (sv : Services World)
    (config : gmap string pyval) (args : Args) (pre l acc : list string)
    (st : St World) :
  Forall (fun p => path_exists sv st.1 p = true) pre ->
  scan_paths sv config (pre ++ l) args acc st = scan_paths sv config l args (acc ++ pre) st.
Proof.
  destruct st as [w tr]. cbn [fst]. intros H. revert acc.
  induction H as [|p pre Hp _ IH]; intros acc.
  - rewrite app_nil_r. reflexivity.
  - cbn [app scan_paths]. unfold bind at 1.
    destruct (startswith p "file/");
      unfold bind, observe, ret; cbn [fst snd]; rewrite Hp;
      cbn [negb fst snd]; rewrite ?Hp;
      rewrite IH, <- app_assoc; reflexivity.
Qed.

(** X22: a dangling link (a path of the store that does not exist, outside
    [file/]) makes [list_files_by_modification] announce it and ask the
    backend of the decoded name to remove the model; when that removal
    raises, the error ends the listing. *)
Theorem dangling_link_removal_failure {World : Type} (sv : Services World)
    (config : gmap string pyval) (args : Args) (st : St World)
    (pre rest : list string) (p : string) (b : Backend) (e : exn) (w' : World)
    (Hglob : rglob sv st.1 = pre ++ p :: rest)
    (Hpre : Forall (fun q => path_exists sv st.1 q = true) pre)
    (Hfile : startswith p "file/" = false)
    (Hgone : path_exists sv st.1 p = false)
    (Hnew : New config (replace_first "/" "://" p) args = Ok b)
    (Hremove : model_remove sv b args false st.1 = (Raise e, w')) :
  list_files_by_modification sv config args st
  = (Raise e, (w', st.2 ++ [EvPrint (broken_symlink_message args p);
                            EvRemove b args false])).
Proof.
  unfold list_files_by_modification. unfold bind at 1. unfold observe at 1.
  rewrite Hglob. apply bind_raise.
  rewrite (scan_paths_app_exist sv config args pre (p :: rest) [] st Hpre).
  cbn [scan_paths]. rewrite Hfile.
  unfold bind at 1. unfold ret at 1.
  unfold bind at 1. unfold observe at 1. rewrite Hgone.
  unfold bind at 1. unfold bind at 1. unfold print at 1. unfold emit at 1.
  unfold bind at 1. rewrite Hnew. cbn [lift_result]. unfold ret at 1.
  unfold call_remove, call. cbn [fst snd]. rewrite Hremove.
  unfold broken_symlink_message. rewrite <- app_assoc. reflexivity.
Qed.

Lemma dangling_link_removal_failure_witness :
  list_files_by_modification dangling_services demo_config demo_args demo_st
  = (Raise (KeyError "model not found"),
     ("/home/user",
      demo_st.2 ++ [EvPrint (broken_symlink_message demo_args "ollama/gone");
                    EvRemove (Ollama "ollama://gone") demo_args false])).
Proof.
  refine (dangling_link_removal_failure dangling_services demo_config demo_args demo_st
            ["ollama/foo"] ["ollama/bar"] "ollama/gone" (Ollama "ollama://gone")
            (KeyError "model not found") "/home/user"
            eq_refl _ eq_refl eq_refl eq_refl eq_refl).
  repeat constructor.
Defined.

(** X23: a path under [file/] whose file is gone is only reported on the
    error stream, as the [file:///] reference it stands for: nothing is
    removed, and the path is left out of the result. *)
Theorem missing_file_only_reported {World : Type} (sv : Services World)
    (config : gmap string pyval) (args : Args) (st : St World)
    (pre rest : list string) (p : string)
    (Hglob : rglob sv st.1 = pre ++ p :: rest)
    (Hpre : Forall (fun q => path_exists sv st.1 q = true) pre)
    (Hrest : Forall (fun q => path_exists sv st.1 q = true) rest)
    (Hfile : startswith p "file/" = true)
    (Hgone : path_exists sv st.1 p = false) :
  list_files_by_modification sv config args st
  = (Ok (sorted_by_Z_reverse (getmtime sv st.1) (pre ++ rest)),
     (st.1, st.2 ++ [EvPerror (replace_all "file/" "file:///" p +:+ " does not exist")])).
Proof.
  unfold list_files_by_modification. unfold bind at 1. unfold observe at 1.
  rewrite Hglob.
  assert (Hscan : scan_paths sv config (pre ++ p :: rest) args [] st
                  = (Ok (pre ++ rest),
                     (st.1, st.2 ++ [EvPerror (replace_all "file/" "file:///" p
                                               +:+ " does not exist")]))).
  { rewrite (scan_paths_app_exist sv config args pre (p :: rest) [] st Hpre).
    cbn [scan_paths]. rewrite Hfile.
    unfold bind at 1. unfold bind at 1. unfold observe at 1. rewrite Hgone.
    unfold ret at 1. cbn [negb]. unfold bind at 1. unfold perror at 1. unfold emit at 1.
    cbn [fst snd].
    rewrite (scan_paths_all_exist sv config args rest _ (st.1, _) Hrest). reflexivity. }
  rewrite (bind_ok _ _ _ _ _ Hscan). reflexivity.
Qed.

Lemma missing_file_only_reported_witness :
  list_files_by_modification missing_file_services demo_config demo_args demo_st
  = (Ok (sorted_by_Z_reverse (getmtime missing_file_services demo_st.1)
           (["ollama/foo"] ++ ["ollama"])),
     (demo_st.1, demo_st.2 ++ [EvPerror "file:///tmp/m.gguf does not exist"])).
Proof.
  refine (missing_file_only_reported missing_file_services demo_config demo_args demo_st
            ["ollama/foo"] ["ollama"] "file/tmp/m.gguf" eq_refl _ _ eq_refl eq_refl);
    repeat constructor.
Defined.

(** X24: the name [_list_models] gives to a link under [huggingface/],
    [ollama/] or [oci/] is the directory, [://] and the rest of the path, and
    [New] resolves that name to the backend of the directory's family
    whatever the default transport (for [oci/], unless the rest mentions
    [ollama.com/library/]); a link under [file/] is named with [file:///].
    So [rm --all] asks the backend a model was stored by. *)
Theorem listed_name_resolves_to_its_store {World : Type} (sv : Services World)
    (w : World) (config : gmap string pyval) (args : Args)
    (dir : string) (t : Transport) (rest : string)
    (Hdir : In (dir, t) store_dirs)
    (Hlib : t = TOCI -> contains "ollama.com/library/" rest = false) :
  name (entry_of_path sv w (dir +:+ "/" +:+ rest)) = dir +:+ "://" +:+ rest
  /\ New config (name (entry_of_path sv w (dir +:+ "/" +:+ rest))) args
     = Ok (backend_of t (dir +:+ "://" +:+ rest) args)
  /\ name (entry_of_path sv w ("file/" +:+ rest)) = "file:///" +:+ rest.
Proof.
  unfold store_dirs in Hdir. simpl in Hdir.
  destruct Hdir as [[= <- <-] | [[= <- <-] | [[= <- <-] | []]]].
  - repeat split.
  - repeat split.
  - split; [reflexivity|]. split; [|reflexivity].
    change (name (entry_of_path sv w ("oci" +:+ "/" +:+ rest))) with ("oci://" +:+ rest).
    apply (New_first_match config ("oci://" +:+ rest) args TOCI).
    apply (spec_owner_of_prefix TOCI "oci://" rest); [simpl; tauto|].
    apply Hlib. reflexivity.
Qed.

Lemma listed_name_resolves_to_its_store_witness :
  name (entry_of_path demo_services "/" ("ollama" +:+ "/" +:+ "foo"))
  = "ollama" +:+ "://" +:+ "foo"
  /\ New {[ "transport" := VStr "oci" ]}
       (name (entry_of_path demo_services "/" ("ollama" +:+ "/" +:+ "foo"))) demo_args
     = Ok (backend_of TOllama ("ollama" +:+ "://" +:+ "foo") demo_args)
  /\ name (entry_of_path demo_services "/" ("file/" +:+ "foo")) = "file:///" +:+ "foo".
Proof.
  apply (listed_name_resolves_to_its_store demo_services "/"
           {[ "transport" := VStr "oci" ]} demo_args "ollama" TOllama "foo").
  - simpl. tauto.
  - discriminate.
Defined.

(** ** [engine_info] *)



(** ** The GPU report *)

Lemma vendor_info_keys (vendor info : string) :
  vendor_info vendor info !! "Vendor" = Some (VStr vendor)
  /\ vendor_info vendor info !! "INFO" = Some (VStr info).
Proof.
  unfold vendor_info. split.
  - apply lookup_insert_eq.
  - rewrite lookup_insert_ne by done. apply lookup_singleton_eq.
Qed.

(** One probe never raises and leaves the trace alone: it moves the world
    as the probe does, and adds to the two lists what the probe's outcome
    contributes. *)
Lemma gpu_probe_run {World : Type} (det : GPUDetector World)
    (vendor none_msg : string)
    (probe : World -> result (list (gmap string pyval)) * World)
    (acc : list (gmap string pyval) * list (gmap string pyval)) (st : St World) :
  gpu_probe det vendor none_msg probe acc st
  = (Ok (acc.1 ++ probe_found (probe st.1).1,
         acc.2 ++ probe_error det vendor none_msg (probe st.1).1),
     ((probe st.1).2, st.2)).
Proof.
  unfold gpu_probe, try_except, bind, effect, ret.
  destruct (probe st.1) as [[[|g gs] | e] w']; cbn [fst snd probe_found probe_error].
  - rewrite app_nil_r. reflexivity.
  - rewrite app_nil_r. reflexivity.
  - rewrite app_nil_r. reflexivity.
Qed.

Lemma probe_error_keys {World : Type} (det : GPUDetector World)
    (vendor none_msg : string) (r : result (list (gmap string pyval))) :
  Forall (fun e => e !! "Vendor" = Some (VStr vendor) /\ is_Some (e !! "INFO"))
    (probe_error det vendor none_msg r).
Proof.
  destruct r as [[|g gs] | e]; cbn [probe_error]; repeat constructor;
    try apply vendor_info_keys;
    rewrite (proj2 (vendor_info_keys _ _)); eauto.
Qed.

(** X26: [show_gpus_available_cli] never raises, whatever the probes do, and
    prints nothing.  It runs the probe of macOS on Darwin, and the probes of
    NVIDIA, AMD and Intel in that order elsewhere, each from the world the
    one before left.  Its report lists the GPUs the probes returned, in
    probe order, or the [No GPUs detected] entry when they returned none,
    and one error entry for each probe that returned nothing or raised, in
    probe order, with the probe's vendor and the fixed text or the text of
    the exception, or [No errors] when every probe returned a GPU.  When no
    probe returned a GPU every probe has its error entry, so the report
    never falls back to [No GPUs detected] with [No errors]. *)
Theorem gpu_report_from_probes {World : Type} (det : GPUDetector World) (st : St World) :
  show_gpus_available_cli det st
  = (Ok (gpu_report (found_gpus (probe_outcomes det st.1).1)
                    (probe_errors det (probe_outcomes det st.1).1)),
     ((probe_outcomes det st.1).2, st.2))
  /\ (1 <= length (probe_outcomes det st.1).1 <= 3)%nat
  /\ (found_gpus (probe_outcomes det st.1).1 = [] ->
      length (probe_errors det (probe_outcomes det st.1).1)
      = length (probe_outcomes det st.1).1)
  /\ (probe_errors det (probe_outcomes det st.1).1 = [] ->
      Forall (fun o => exists g gs, o.2 = Ok (g :: gs)) (probe_outcomes det st.1).1)
  /\ Forall2 (fun o errs =>
                errs = probe_error det o.1.1 o.1.2 o.2
                /\ Forall (fun e => e !! "Vendor" = Some (VStr o.1.1)
                                    /\ is_Some (e !! "INFO")) errs)
       (probe_outcomes det st.1).1
       (map (fun o => probe_error det o.1.1 o.1.2 o.2) (probe_outcomes det st.1).1).
Proof.
  split; [|split; [|split; [|split]]].
  - unfold show_gpus_available_cli, probe_outcomes.
    destruct (String.eqb (platform_system det) "Darwin").
    + unfold bind at 1. rewrite gpu_probe_run. unfold ret.
      cbn [fst snd found_gpus probe_errors flat_map app].
      rewrite !app_nil_r. reflexivity.
    + unfold bind at 1. unfold bind at 1. rewrite gpu_probe_run.
      unfold bind at 1. rewrite gpu_probe_run. rewrite gpu_probe_run. unfold ret.
      cbn [fst snd found_gpus probe_errors flat_map app].
      rewrite !app_nil_r, <- !app_assoc. reflexivity.
  - unfold probe_outcomes.
    destruct (String.eqb (platform_system det) "Darwin"); cbn [fst length]; lia.
  - generalize (probe_outcomes det st.1).1. intros outs.
    unfold found_gpus, probe_errors.
    induction outs as [|[[vendor none_msg] r] outs IH]; [reflexivity|].
    cbn [flat_map fst snd]. intros Hnil.
    apply app_eq_nil in Hnil as [Hr Houts].
    rewrite length_app, (IH Houts).
    destruct r as [[|g gs] | e]; [reflexivity | discriminate | reflexivity].
  - generalize (probe_outcomes det st.1).1. intros outs.
    unfold probe_errors.
    induction outs as [|[[vendor none_msg] r] outs IH]; [constructor|].
    cbn [flat_map fst snd]. intros Hnil.
    apply app_eq_nil in Hnil as [Hr Houts].
    constructor; [|exact (IH Houts)].
    destruct r as [[|g gs] | e]; [discriminate | cbn [snd]; eauto | discriminate].
  - generalize (probe_outcomes det st.1).1. intros outs.
    induction outs as [|[[vendor none_msg] r] outs IH]; [constructor|].
    cbn [map]. constructor; [|exact IH].
    split; [reflexivity|]. apply probe_error_keys.
Qed.

(** On the Linux host with an NVIDIA card, no AMD tooling and no Intel GPU,
    the report lists the card and the two errors, AMD's before Intel's. *)
Lemma gpu_report_from_probes_witness :
  show_gpus_available_cli demo_detector demo_st
  = (Ok {| detected_gpus := [demo_gpu];
           gpu_info_field :=
             inl [vendor_info "AMD" "No such file or directory: rocm-smi";
                  vendor_info "Intel" "No Intel GPU detected or drivers missing."] |},
     demo_st).
Proof.
  exact (proj1 (gpu_report_from_probes demo_detector demo_st)).
Defined.

(** ** [push] and its source *)

(** X27: [_get_source] returns a source that exists as a path as it is,
    without looking at short names or transports; otherwise it resolves the
    expanded name: an OCI source is returned as a reference, any other model
    is pulled when the backend does not have it and located when it does; a
    name that does not resolve raises before any backend is asked. *)
Theorem get_source_outcomes {World : Type} (sv : Services World)
    (ops : ModelOps World) (config : gmap string pyval) (SOURCE : string)
    (args : Args) (st : St World) :
  (path_exists sv st.1 SOURCE = true ->
   _get_source sv ops config SOURCE args st = (Ok SOURCE, st))
  /\ (path_exists sv st.1 SOURCE = false ->
      (forall e, New config (resolve_shortname sv SOURCE) args = Raise e ->
                 _get_source sv ops config SOURCE args st = (Raise e, st))
      /\ (forall b, New config (resolve_shortname sv SOURCE) args = Ok b ->
            (model_type ops b = "OCI" ->
             _get_source sv ops config SOURCE args st
             = (Ok (resolve_shortname sv SOURCE), st))
            /\ (model_type ops b <> "OCI" ->
                forall w1,
                  (model_exists ops b args st.1 = (Ok false, w1) ->
                   _get_source sv ops config SOURCE args st
                   = ((model_pull ops b args w1).1, ((model_pull ops b args w1).2, st.2)))
                  /\ (model_exists ops b args st.1 = (Ok true, w1) ->
                      _get_source sv ops config SOURCE args st
                      = ((model_path ops b args w1).1,
                         ((model_path ops b args w1).2, st.2)))))).
Proof.
  split.
  - intros He. unfold _get_source, bind, observe. rewrite He. reflexivity.
  - intros He. split.
    + intros e HN. unfold _get_source, bind, observe. rewrite He, HN. reflexivity.
    + intros b HN. split.
      * intros Ht. unfold _get_source, bind, observe. rewrite He, HN. simpl.
        rewrite Ht. reflexivity.
      * intros Ht w1. apply String.eqb_neq in Ht.
        split; intros Hex; unfold _get_source, bind, observe, effect;
          rewrite He, HN; simpl; rewrite Ht, Hex; simpl.
        -- destruct (model_pull ops b args w1). reflexivity.
        -- destruct (model_path ops b args w1). reflexivity.
Qed.

Lemma get_source_outcomes_witness :
  _get_source live_services live_ops demo_config "model.gguf" demo_args live_st
  = (Ok "model.gguf", live_st)
  /\ _get_source live_services live_ops demo_config "ollama://smollm" demo_args live_st
     = (Ok "/store/ollama://smollm", ("ollama://smollm" :: live_st.1, live_st.2)).
Proof.
  split.
  - exact (proj1 (get_source_outcomes live_services live_ops demo_config "model.gguf"
                    demo_args live_st) eq_refl).
  - refine (proj1 (proj2 (proj2 (proj2 (get_source_outcomes live_services live_ops
                                          demo_config "ollama://smollm" demo_args
                                          live_st) eq_refl)
                                 (Ollama "ollama://smollm") eq_refl) _ live_st.1)
              eq_refl).
    discriminate.
Defined.

Lemma push_cli_operands {World : Type} (sv : Services World) (ops : ModelOps World)
    (config : gmap string pyval) (host : Host) (SOURCE : string)
    (TARGET : option string) (args : Args) (st st1 : St World)
    (target source : string) :
  push_operands sv ops config SOURCE TARGET args st = (Ok (target, source), st1) ->
  push_cli sv ops config host SOURCE TARGET args st
  = try_except
      (bind (lift_result (New config (resolve_shortname sv target) args))
            (fun model => effect (model_push ops model source args)))
      (fun e =>
         if is_NotImplementedError e then
           if has_model_type_prefix sv (resolve_shortname sv target) then raise e
           else
             try_except
               (effect (model_push ops
                          (OCI (resolve_shortname sv target)
                               (conman_of (dict_get config "engine"
                                             (opt_str (container_manager host)))))
                          source args))
               (fun _ => raise e)
         else raise e) st1.
Proof.
  intros H. unfold push_cli.
  change (if opt_truthy TARGET
          then bind (_get_source sv ops config SOURCE args)
                    (fun source => ret (default EmptyString TARGET, source))
          else ret (SOURCE, SOURCE))
    with (push_operands sv ops config SOURCE TARGET args).
  rewrite (bind_ok _ _ _ _ _ H). reflexivity.
Qed.

(** X28: when the backend of the target cannot push ([NotImplementedError]),
    [push_cli] raises that error if the target carries a prefix of
    [MODEL_TYPES]; otherwise it pushes once more through an OCI backend built
    with the engine of the configuration (not the one of the arguments), and
    if that fails too it raises the first error, not the second.  Any other
    failure of the first push reaches the caller without a second try. *)
Theorem push_falls_back_to_oci {World : Type} (sv : Services World)
    (ops : ModelOps World) (config : gmap string pyval) (host : Host)
    (SOURCE : string) (TARGET : option string) (args : Args) (st st1 : St World)
    (target source : string) (b : Backend) (e : exn) (w1 : World)
    (conman : option string)
    (Hoperands : push_operands sv ops config SOURCE TARGET args st
                 = (Ok (target, source), st1))
    (Hnew : New config (resolve_shortname sv target) args = Ok b)
    (Hpush : model_push ops b source args st1.1 = (Raise e, w1))
    (Hengine : dict_get config "engine" (opt_str (container_manager host))
               = opt_str conman) :
  (is_NotImplementedError e = false ->
   push_cli sv ops config host SOURCE TARGET args st = (Raise e, (w1, st1.2)))
  /\ (is_NotImplementedError e = true ->
      (has_model_type_prefix sv (resolve_shortname sv target) = true ->
       push_cli sv ops config host SOURCE TARGET args st = (Raise e, (w1, st1.2)))
      /\ (has_model_type_prefix sv (resolve_shortname sv target) = false ->
          forall r w2,
            model_push ops (OCI (resolve_shortname sv target) conman) source args w1
            = (r, w2) ->
            push_cli sv ops config host SOURCE TARGET args st
            = (match r with Ok _ => Ok tt | Raise _ => Raise e end, (w2, st1.2)))).
Proof.
  assert (Hc : conman_of (opt_str conman) = conman) by (destruct conman; reflexivity).
  assert (Hrun : push_cli sv ops config host SOURCE TARGET args st
                 = (if is_NotImplementedError e then
                      if has_model_type_prefix sv (resolve_shortname sv target)
                      then raise e
                      else
                        try_except
                          (effect (model_push ops
                                     (OCI (resolve_shortname sv target) conman)
                                     source args))
                          (fun _ => raise e)
                    else raise e) (w1, st1.2)).
  { rewrite (push_cli_operands sv ops config host SOURCE TARGET args st st1 target
               source Hoperands).
    unfold try_except at 1. unfold bind at 1. rewrite Hnew. cbn [lift_result].
    unfold ret at 1. unfold effect at 1. rewrite Hpush. cbv beta iota zeta.
    rewrite Hengine, Hc. reflexivity. }
  rewrite Hrun. clear Hrun.
  split.
  - intros ->. reflexivity.
  - intros ->. split.
    + intros ->. reflexivity.
    + intros -> r w2 Hf. unfold try_except, effect. cbn [fst snd].
      rewrite Hf. destruct r as [[]|]; reflexivity.
Qed.

Lemma push_falls_back_to_oci_witness :
  push_cli live_services live_ops demo_config demo_host "model.gguf"
    (Some "quay.io/models/m:latest") demo_args live_st
  = (Ok tt, (("quay.io/models/m:latest" +:+ "<-" +:+ "model.gguf") :: live_st.1, live_st.2)).
Proof.
  refine (proj2 (proj2 (push_falls_back_to_oci live_services live_ops demo_config
                          demo_host "model.gguf" (Some "quay.io/models/m:latest")
                          demo_args live_st live_st "quay.io/models/m:latest"
                          "model.gguf" (Ollama "quay.io/models/m:latest")
                          (NotImplementedError "push is not supported") live_st.1
                          (Some "podman") eq_refl eq_refl eq_refl eq_refl)
                   eq_refl)
            eq_refl (Ok tt)
            (("quay.io/models/m:latest" +:+ "<-" +:+ "model.gguf") :: live_st.1)
            eq_refl).
Defined.

(** ** [load_config] *)

Lemma load_conf_files_app {P : Type} (fs : ConfigFiles P) (a b : list string)
    (c : gmap string (gmap string pyval)) (st : St P) :
  load_conf_files fs (a ++ b) c st =
  match load_conf_files fs a c st with
  | (Ok c', st') => load_conf_files fs b c' st'
  | (Raise e, st') => (Raise e, st')
  end.
Proof.
  revert c st. induction a as [|x a IH]; intros c st; [reflexivity|].
  cbn [app load_conf_files]. unfold bind.
  destruct (effect (parse_file fs x) st) as [[c' | e] st']; [apply IH | reflexivity].
Qed.

(** The loop over the paths reads the files of [config_files], one after the
    other, each parse replacing the dictionary of the one before. *)
Lemma load_paths_files {P : Type} (fs : ConfigFiles P) (paths : list string)
    (c : gmap string (gmap string pyval)) (st : St P) :
  load_paths fs paths c st =
  load_conf_files fs
    (flat_map
       (fun path =>
          (if cf_exists fs path then [path] else [])
          ++ (if cf_isdir fs (path +:+ ".d")
              then sorted_by_str id (cf_glob_conf fs (path +:+ ".d")) else []))
       paths) c st.
Proof.
  revert c st. induction paths as [|path paths IH]; intros c st; [reflexivity|].
  cbn [load_paths flat_map]. rewrite !load_conf_files_app.
  destruct (cf_exists fs path), (cf_isdir fs (path +:+ ".d"));
    cbn [load_conf_files]; unfold bind, ret.
  - destruct (effect (parse_file fs path) st) as [[c1 | e] st1]; [|reflexivity].
    destruct (load_conf_files fs (sorted_by_str id _) c1 st1) as [[c2 | e] st2];
      [apply IH | reflexivity].
  - destruct (effect (parse_file fs path) st) as [[c1 | e] st1]; [apply IH | reflexivity].
  - destruct (load_conf_files fs (sorted_by_str id _) c st) as [[c2 | e] st2];
      [apply IH | reflexivity].
  - apply IH.
Qed.

(** X29: with RAMALAMA_CONFIG set to a non-empty path, [load_config] parses
    that file and no other.  Otherwise it parses, in this order, the files
    that exist among /usr/share, /usr/local/share, /etc and the user's
    configuration directory, each followed by the [*.conf] files of its [.d]
    directory in name order; it returns what the parser answered for the
    last file (the empty dictionary when there is none), and the first
    parse that raises ends it. *)
Theorem load_config_reading_order {P : Type} (fs : ConfigFiles P) (host : Host)
    (environ : gmap string string) (st : St P) :
  (forall p, environ !! "RAMALAMA_CONFIG" = Some p -> p <> EmptyString ->
             load_config fs host environ st
             = ((parse_file fs p st.1).1, ((parse_file fs p st.1).2, st.2)))
  /\ (environ !! "RAMALAMA_CONFIG" = None
      \/ environ !! "RAMALAMA_CONFIG" = Some EmptyString ->
      load_config fs host environ st
      = load_conf_files fs (config_files fs host environ) ∅ st
      /\ (config_files fs host environ = [] ->
          load_config fs host environ st = (Ok ∅, st))
      /\ (forall files last c1 st1,
             config_files fs host environ = files ++ [last] ->
             load_conf_files fs files ∅ st = (Ok c1, st1) ->
             load_config fs host environ st
             = ((parse_file fs last st1.1).1, ((parse_file fs last st1.1).2, st1.2)))
      /\ (forall files rest e st1,
             config_files fs host environ = files ++ rest ->
             load_conf_files fs files ∅ st = (Raise e, st1) ->
             load_config fs host environ st = (Raise e, st1))).
Proof.
  split.
  - intros p Hp Hne. unfold load_config, str_truthy. rewrite Hp.
    rewrite (str_eqb_false _ _ Hne). unfold effect. cbn [negb].
    destruct (parse_file fs p st.1). reflexivity.
  - intros Henv.
    assert (Hload : load_config fs host environ st
                    = load_conf_files fs (config_files fs host environ) ∅ st).
    { unfold load_config, config_files.
      destruct Henv as [-> | ->];
        [| change (str_truthy EmptyString) with false ];
        cbv iota; apply load_paths_files. }
    rewrite Hload. split; [reflexivity|]. split; [|split].
    + intros ->. reflexivity.
    + intros files last c1 st1 -> Hfiles.
      rewrite load_conf_files_app, Hfiles. cbn [load_conf_files].
      unfold bind, effect, ret. destruct (parse_file fs last st1.1) as [[c | e] p'];
        reflexivity.
    + intros files rest e st1 -> Hfiles.
      rewrite load_conf_files_app, Hfiles. reflexivity.
Qed.

Lemma load_config_reading_order_witness :
  load_config demo_config_files demo_host {[ "RAMALAMA_CONFIG" := "/tmp/my.conf" ]} ([], [])
  = (Ok {[ "ramalama" := {[ "image" := VStr "/tmp/my.conf" ]} ]}, (["/tmp/my.conf"], []))
  /\ load_config demo_config_files demo_host ∅ ([], [])
     = (Ok {[ "ramalama" := {[ "image" := VStr "/home/user/.config/ramalama/ramalama.conf" ]} ]},
        (["/usr/share/ramalama/ramalama.conf";
          "/etc/ramalama/ramalama.conf.d/10-a.conf";
          "/etc/ramalama/ramalama.conf.d/20-b.conf";
          "/home/user/.config/ramalama/ramalama.conf"], [])).
Proof.
  split.
  - refine (proj1 (load_config_reading_order demo_config_files demo_host
                     {[ "RAMALAMA_CONFIG" := "/tmp/my.conf" ]} ([], []))
              "/tmp/my.conf" eq_refl _).
    discriminate.
  - refine (eq_trans
              (proj1 (proj2 (load_config_reading_order demo_config_files demo_host
                               ∅ ([], [])) (or_introl eq_refl))) _).
    vm_compute. reflexivity.
Defined.
